(** * Contract lifecycle service of giga_gigacounts

    A shallow embedding of the contract service (the second module stored
    in src/app/Services/Attachment.ts, after the attachment service) and of
    the contract DTOs (src/app/DTOs/Contract.ts, with the older variant of
    src/unnamed/part_001 where the two differ), followed by the properties
    the design document states about them.

    Conventions of the embedding:
    - a JavaScript [number] that holds a key or a status is a [Z]; a
      measured or expected metric value is a [Q];
    - [undefined]/[null] is [None]; JavaScript truthiness is written out
      ([truthy]);
    - a thrown exception is the [Err] outcome of a state-and-error monad
      over the storage; the storage survives the exception, so what
      [catch] does with the open transaction is visible;
    - the relational store is a record of tables (lists of rows, in
      insertion order). *)

From Stdlib Require Import ZArith QArith Strings.String DecimalString.
From stdpp Require Import base option list strings gmap.

Local Open Scope string_scope.
Local Open Scope list_scope.
Local Open Scope Z_scope.

(** ** Exceptions *)

(** The three exception classes of App/Exceptions carry
    [(message, status, code)]; an error raised by the storage driver and a
    JavaScript [TypeError] have no [status] property. *)
Inductive Exception :=
| NotFoundException (message : string) (status : Z) (code : string)
| InvalidStatusException (message : string) (status : Z) (code : string)
| FailedDependencyException (message : string) (status : Z) (code : string)
| DatabaseError (detail : string)
| TypeError (detail : string).

(** [error.status] *)
Definition error_status (error : Exception) : option Z :=
  match error with
  | NotFoundException _ s _ => Some s
  | InvalidStatusException _ s _ => Some s
  | FailedDependencyException _ s _ => Some s
  | DatabaseError _ => None
  | TypeError _ => None
  end.

(** [if (error)]: a thrown exception object is an object, hence truthy. *)
Definition error_truthy (error : Exception) : bool := true.

(** [if (n)] on an optional number: [undefined], [null] and [0] are falsy. *)
Definition truthy (n : option Z) : bool :=
  match n with
  | Some k => negb (k =? 0)
  | None => false
  end.

Inductive Result (A : Type) :=
| Ok (a : A)
| Err (e : Exception).
Arguments Ok {A} a.
Arguments Err {A} e.

(** ** Rows *)

Module Country.
Record t := mk { id : Z; name : string; code : string; flagUrl : string }.
End Country.

Module Isp.
Record t := mk { id : Z; name : string }.
End Isp.

Module Lta.
Record t := mk { id : Z; name : string; countryId : Z }.
End Lta.

Module School.
Record t := mk { id : Z; name : string }.
End School.

Module ExpectedMetric.
Record t := mk { contractId : Z; metricId : Z; value : Q }.
End ExpectedMetric.

Module Measure.
Record t := mk { schoolId : Z; metricId : Z; value : Q }.
End Measure.

Module Payment.
Record t := mk { contractId : Z; amount : Z }.
End Payment.

Module Contract.
Record t := mk {
  id : Z;
  name : string;
  countryId : Z;
  governmentBehalf : bool;
  ltaId : option Z;
  currencyId : Z;
  budget : string;
  frequencyId : Z;
  startDate : Z;
  endDate : Z;
  ispId : Z;
  createdBy : Z;
  status : Z
}.

(** [contract.status = newStatus] *)
Definition set_status (c : t) (s : Z) : t :=
  mk (id c) (name c) (countryId c) (governmentBehalf c) (ltaId c)
     (currencyId c) (budget c) (frequencyId c) (startDate c) (endDate c)
     (ispId c) (createdBy c) s.
End Contract.

Module Draft.
Record t := mk {
  id : Z;
  name : string;
  countryId : option Z;
  governmentBehalf : bool;
  ltaId : option Z;
  ispId : option Z;
  schools : option (list Z);
  createdAt : Z
}.
End Draft.

Module StatusTransition.
(** The [data] column of the row written when a draft is promoted. *)
Record payload := mkPayload { draftId : Z; draftCreation : Z }.

Record t := mk {
  who : Z;
  contractId : Z;
  initialStatus : Z;
  finalStatus : Z;
  data : option payload
}.
End StatusTransition.

(** ** The store *)

(** The tables the service touches.  [metrics] and [attachments] hold the
    keys of the existing rows; [contract_attachments], [contract_schools]
    and [lta_isps] are the pivot tables of the many-to-many relations;
    [contracts_id_seq] is the key the next inserted contract receives (it
    is kept with the tables, so a transaction that is rolled back gives its
    key back; no property below depends on that). *)
Record Db := mkDb {
  contracts : list Contract.t;
  contracts_id_seq : Z;
  drafts : list Draft.t;
  ltas : list Lta.t;
  lta_isps : list (Z * Z);
  isps : list Isp.t;
  countries : list Country.t;
  schools : list School.t;
  metrics : list Z;
  attachments : list Z;
  contract_attachments : list (Z * Z);
  contract_schools : list (Z * Z);
  expected_metrics : list ExpectedMetric.t;
  status_transitions : list StatusTransition.t;
  measures : list Measure.t;
  payments : list Payment.t
}.

(** The statements the two transactional workflows issue. *)
Inductive StorageOp :=
| ContractCreate
| ContractFind
| ContractSave
| AttachmentsAttach
| SchoolsAttach
| ExpectedMetricsCreate
| DraftFindBy
| DraftDelete
| StatusTransitionCreate
| TrxCommit.

(** A connection to the store: the committed tables, the working copy of
    the open transaction (if any), and the statements that the store
    currently refuses for a reason of its own (lost connection, a
    constraint outside this model, ...). *)
Record Storage := mkStorage {
  committed : Db;
  pending : option Db;
  outage : StorageOp -> bool
}.

(** ** The state-and-error monad *)

Definition M (A : Type) : Type := Storage -> Result A * Storage.

#[global] Instance M_ret : MRet M := fun A a s => (Ok a, s).

#[global] Instance M_bind : MBind M := fun A B f m s =>
  match m s with
  | (Ok a, s') => f a s'
  | (Err e, s') => (Err e, s')
  end.

Definition throw {A} (e : Exception) : M A := fun s => (Err e, s).

(** [try { body } catch (error) { handler }] *)
Definition try_catch {A} (body : M A) (handler : Exception -> M A) : M A :=
  fun s =>
    match body s with
    | (Ok a, s') => (Ok a, s')
    | (Err e, s') => handler e s'
    end.

(** [Database.transaction()]: the transaction starts from the committed
    tables.  Both workflows call it before their [try] block; opening it is
    taken to succeed. *)
Definition Database_transaction : M unit := fun s =>
  (Ok tt, mkStorage (committed s) (Some (committed s)) (outage s)).

(** [trx.rollback()] *)
Definition trx_rollback : M unit := fun s =>
  (Ok tt, mkStorage (committed s) None (outage s)).

(** [trx.commit()] *)
Definition trx_commit : M unit := fun s =>
  if outage s TrxCommit then (Err (DatabaseError "commit failed"), s)
  else
    match pending s with
    | Some db => (Ok tt, mkStorage db None (outage s))
    | None => (Err (DatabaseError "transaction is not active"), s)
    end.

(** A statement run with [{ client: trx }]: it reads and writes the working
    copy of the transaction, and leaves it untouched when it fails. *)
Definition with_client {A} (op : StorageOp) (stmt : Db -> Result (A * Db)) : M A :=
  fun s =>
    if outage s op then (Err (DatabaseError "statement failed"), s)
    else
      match pending s with
      | None => (Err (DatabaseError "transaction is not active"), s)
      | Some db =>
          match stmt db with
          | Ok (a, db') => (Ok a, mkStorage (committed s) (Some db') (outage s))
          | Err e => (Err e, s)
          end
      end.

(** ** Setters of the tables the workflows write *)

Definition insert_contract (c : Contract.t) (db : Db) : Db :=
  mkDb (contracts db ++ [c]) (contracts_id_seq db + 1) (drafts db) (ltas db)
       (lta_isps db) (isps db) (countries db) (schools db) (metrics db)
       (attachments db) (contract_attachments db) (contract_schools db)
       (expected_metrics db) (status_transitions db) (measures db) (payments db).

Definition set_contracts (cs : list Contract.t) (db : Db) : Db :=
  mkDb cs (contracts_id_seq db) (drafts db) (ltas db)
       (lta_isps db) (isps db) (countries db) (schools db) (metrics db)
       (attachments db) (contract_attachments db) (contract_schools db)
       (expected_metrics db) (status_transitions db) (measures db) (payments db).

Definition set_drafts (ds : list Draft.t) (db : Db) : Db :=
  mkDb (contracts db) (contracts_id_seq db) ds (ltas db)
       (lta_isps db) (isps db) (countries db) (schools db) (metrics db)
       (attachments db) (contract_attachments db) (contract_schools db)
       (expected_metrics db) (status_transitions db) (measures db) (payments db).

Definition set_contract_attachments (ps : list (Z * Z)) (db : Db) : Db :=
  mkDb (contracts db) (contracts_id_seq db) (drafts db) (ltas db)
       (lta_isps db) (isps db) (countries db) (schools db) (metrics db)
       (attachments db) ps (contract_schools db)
       (expected_metrics db) (status_transitions db) (measures db) (payments db).

Definition set_contract_schools (ps : list (Z * Z)) (db : Db) : Db :=
  mkDb (contracts db) (contracts_id_seq db) (drafts db) (ltas db)
       (lta_isps db) (isps db) (countries db) (schools db) (metrics db)
       (attachments db) (contract_attachments db) ps
       (expected_metrics db) (status_transitions db) (measures db) (payments db).

Definition set_expected_metrics (ems : list ExpectedMetric.t) (db : Db) : Db :=
  mkDb (contracts db) (contracts_id_seq db) (drafts db) (ltas db)
       (lta_isps db) (isps db) (countries db) (schools db) (metrics db)
       (attachments db) (contract_attachments db) (contract_schools db)
       ems (status_transitions db) (measures db) (payments db).

Definition set_status_transitions (ts : list StatusTransition.t) (db : Db) : Db :=
  mkDb (contracts db) (contracts_id_seq db) (drafts db) (ltas db)
       (lta_isps db) (isps db) (countries db) (schools db) (metrics db)
       (attachments db) (contract_attachments db) (contract_schools db)
       (expected_metrics db) ts (measures db) (payments db).

(** ** App/Helpers/constants *)

Module ContractStatus.
(** Modelled from the spec: App/Helpers/constants is not among the
    sources.  The status enum starts [Draft(0) -> Sent(1)]; the labels
    that follow [Sent] are a parameter of the development. *)
Definition Draft : Z := 0.
Definition Sent : Z := 1.

Definition labels (later : list string) : list string :=
  "Draft" :: "Sent" :: later.

(** [ContractStatus[n]], the reverse mapping of a numeric enum. *)
Definition label (later : list string) (n : Z) : option string :=
  if n <? 0 then None else labels later !! Z.to_nat n.

(** [n in ContractStatus] for a number [n]: the numeric keys of the
    compiled enum object are exactly its member values. *)
Definition member (later : list string) (n : Z) : bool :=
  bool_decide (is_Some (label later n)).
End ContractStatus.

Module roles.
(** The role names of App/Helpers/constants ([roles.gigaAdmin], ...),
    which is not among the sources: a parameter of the development. *)
Record t := mk {
  gigaAdmin : string;
  government : string;
  isp : string
}.
End roles.

(** ** App/Helpers/utils *)

Module ObjWithId.
Record t := mk { id : Z }.
End ObjWithId.

(** Modelled from the spec: App/Helpers/utils is not among the sources;
    [destructObjArrayWithId] turns the nested [{ id }] objects of the
    payload into the list of keys to attach. *)
Definition destructObjArrayWithId (objs : list ObjWithId.t) : list Z :=
  ObjWithId.id <$> objs.

(** ** The creation payload *)

Module MetricValue.
Record t := mk { metricId : Z; value : Q }.
End MetricValue.

Module ContractCreation.
(** The interface [ContractCreation].  [status] is not declared by the
    interface; it stands for a [status] property a caller may send
    anyway, which the object spread of [createContract] would copy. *)
Record t := mk {
  draftId : option Z;
  countryId : Z;
  governmentBehalf : bool;
  name : string;
  ltaId : option Z;
  currencyId : Z;
  budget : string;
  frequencyId : Z;
  startDate : Z;
  endDate : Z;
  ispId : Z;
  createdBy : Z;
  attachments : option (list ObjWithId.t);
  schools : list ObjWithId.t;
  expectedMetrics : list MetricValue.t;
  status : option Z
}.
End ContractCreation.

(** Modelled from the spec: [utils.removeProperty(data, 'draftId')], the
    payload without its [draftId] property. *)
Definition removeProperty_draftId (data : ContractCreation.t) : ContractCreation.t :=
  ContractCreation.mk None
    (ContractCreation.countryId data) (ContractCreation.governmentBehalf data)
    (ContractCreation.name data) (ContractCreation.ltaId data)
    (ContractCreation.currencyId data) (ContractCreation.budget data)
    (ContractCreation.frequencyId data) (ContractCreation.startDate data)
    (ContractCreation.endDate data) (ContractCreation.ispId data)
    (ContractCreation.createdBy data) (ContractCreation.attachments data)
    (ContractCreation.schools data) (ContractCreation.expectedMetrics data)
    (ContractCreation.status data).

(** The object literal [{ ...rest, status }]: the property written after
    the spread replaces a spread property of the same name. *)
Definition spread_with_status (rest : ContractCreation.t) (status : Z) : ContractCreation.t :=
  ContractCreation.mk (ContractCreation.draftId rest)
    (ContractCreation.countryId rest) (ContractCreation.governmentBehalf rest)
    (ContractCreation.name rest) (ContractCreation.ltaId rest)
    (ContractCreation.currencyId rest) (ContractCreation.budget rest)
    (ContractCreation.frequencyId rest) (ContractCreation.startDate rest)
    (ContractCreation.endDate rest) (ContractCreation.ispId rest)
    (ContractCreation.createdBy rest) (ContractCreation.attachments rest)
    (ContractCreation.schools rest) (ContractCreation.expectedMetrics rest)
    (Some status).

(** ** Statements *)

(** [Contract.create(values, { client: trx })]: the row takes the next key
    and the column values of the object; the properties that are not
    columns ([attachments], [schools], [expectedMetrics]) are relations and
    are not written here. *)
Definition Contract_create (values : ContractCreation.t) : M Contract.t :=
  with_client ContractCreate (fun db =>
    match ContractCreation.status values with
    | None => Err (DatabaseError "no value for column status")
    | Some st =>
        let contract :=
          Contract.mk (contracts_id_seq db)
            (ContractCreation.name values) (ContractCreation.countryId values)
            (ContractCreation.governmentBehalf values) (ContractCreation.ltaId values)
            (ContractCreation.currencyId values) (ContractCreation.budget values)
            (ContractCreation.frequencyId values) (ContractCreation.startDate values)
            (ContractCreation.endDate values) (ContractCreation.ispId values)
            (ContractCreation.createdBy values) st in
        Ok (contract, insert_contract contract db)
    end).

(** [contract.related('attachments').attach(ids, trx)]: one pivot row per
    key; a key without an attachment row violates the foreign key. *)
Definition attachments_attach (contract : Contract.t) (ids : list Z) : M unit :=
  with_client AttachmentsAttach (fun db =>
    if forallb (fun a => bool_decide (a ∈ attachments db)) ids
    then Ok (tt, set_contract_attachments
                   (contract_attachments db ++ ((fun a => (Contract.id contract, a)) <$> ids)) db)
    else Err (DatabaseError "foreign key violation: attachment")).

(** [contract.related('schools').attach(ids, trx)] *)
Definition schools_attach (contract : Contract.t) (ids : list Z) : M unit :=
  with_client SchoolsAttach (fun db =>
    if forallb (fun k => bool_decide (k ∈ School.id <$> schools db)) ids
    then Ok (tt, set_contract_schools
                   (contract_schools db ++ ((fun k => (Contract.id contract, k)) <$> ids)) db)
    else Err (DatabaseError "foreign key violation: school")).

(** Modelled from the spec: App/Services/Metric is not among the sources.
    [metricService.createExpectedMetrics(metrics, contractId, trx)] inserts
    one ExpectedMetric row per [(metricId, value)] pair, each referencing
    the new contract; a [metricId] without a metric row violates the
    foreign key. *)
Definition createExpectedMetrics (ms : list MetricValue.t) (contractId : Z) : M unit :=
  with_client ExpectedMetricsCreate (fun db =>
    if forallb (fun m => bool_decide (MetricValue.metricId m ∈ metrics db)) ms
    then Ok (tt, set_expected_metrics
                   (expected_metrics db ++
                      ((fun m => ExpectedMetric.mk contractId (MetricValue.metricId m)
                                   (MetricValue.value m)) <$> ms)) db)
    else Err (DatabaseError "foreign key violation: metric")).

(** [Draft.findBy('id', id, { client: trx })] *)
Definition Draft_findBy_id (id : Z) : M (option Draft.t) :=
  with_client DraftFindBy (fun db =>
    Ok (List.find (fun d => Draft.id d =? id) (drafts db), db)).

(** [draft.useTransaction(trx).delete()] *)
Definition Draft_delete (draft : Draft.t) : M unit :=
  with_client DraftDelete (fun db =>
    Ok (tt, set_drafts (List.filter (fun d => negb (Draft.id d =? Draft.id draft)) (drafts db)) db)).

(** [StatusTransition.create(row, { client: trx })] *)
Definition StatusTransition_create (row : StatusTransition.t) : M unit :=
  with_client StatusTransitionCreate (fun db =>
    Ok (tt, set_status_transitions (status_transitions db ++ [row]) db)).

(** [Contract.find(id, { client: trx })] *)
Definition Contract_find (id : Z) : M (option Contract.t) :=
  with_client ContractFind (fun db =>
    Ok (List.find (fun c => Contract.id c =? id) (contracts db), db)).

(** [contract.useTransaction(trx).save()]: the row with the key of
    [contract] takes its column values. *)
Definition Contract_save (contract : Contract.t) : M unit :=
  with_client ContractSave (fun db =>
    Ok (tt, set_contracts
              ((fun c => if Contract.id c =? Contract.id contract then contract else c)
                 <$> contracts db) db)).

(** ** createContract *)

Definition createContract (data : ContractCreation.t) : M Contract.t :=
  _ ← Database_transaction;
  try_catch
    (contract ← Contract_create
                  (spread_with_status (removeProperty_draftId data) ContractStatus.Sent);
     let attachments := default [] (ContractCreation.attachments data) in
     let schools := ContractCreation.schools data in
     let expectedMetrics := ContractCreation.expectedMetrics data in
     _ ← attachments_attach contract (destructObjArrayWithId attachments);
     _ ← schools_attach contract (destructObjArrayWithId schools);
     _ ← createExpectedMetrics expectedMetrics (Contract.id contract);
     _ ← (if truthy (ContractCreation.draftId data) then
            draft ← Draft_findBy_id (default 0 (ContractCreation.draftId data));
            match draft with
            | None => throw (NotFoundException "Draft not found" 404 "NOT_FOUND")
            | Some draft =>
                _ ← StatusTransition_create
                      (StatusTransition.mk
                         (ContractCreation.createdBy data)
                         (Contract.id contract)
                         ContractStatus.Draft
                         ContractStatus.Sent
                         (Some (StatusTransition.mkPayload (Draft.id draft) (Draft.createdAt draft))));
                Draft_delete draft
            end
          else mret tt);
     _ ← trx_commit;
     mret contract)
    (fun error =>
       _ ← trx_rollback;
       if bool_decide (error_status error = Some 404) then throw error
       else throw (FailedDependencyException
                     "Some dependency failed while creating contract"
                     424 "FAILED_DEPENDENCY")).

(** ** changeStatus *)

Section ChangeStatus.
(** The labels of the status enum after [Sent]. *)
Variable laterStatuses : list string.

(** The function returns [undefined] without an acting user and the saved
    contract otherwise. *)
Definition changeStatus (contractId : Z) (newStatus : Z) (userId : option Z)
  : M (option Contract.t) :=
  if negb (truthy userId) then mret None
  else
    _ ← Database_transaction;
    try_catch
      (found ← Contract_find contractId;
       match found with
       | None => throw (NotFoundException "Contract not found" 404 "NOT_FOUND")
       | Some contract =>
           let oldStatus := Contract.status contract in
           if negb (oldStatus + 1 =? newStatus)
              || negb (ContractStatus.member laterStatuses newStatus)
           then throw (InvalidStatusException "Invalid status" 400 "INVALID_STATUS")
           else
             _ ← StatusTransition_create
                   (StatusTransition.mk (default 0 userId) (Contract.id contract)
                      oldStatus newStatus None);
             let contract := Contract.set_status contract newStatus in
             _ ← Contract_save contract;
             _ ← trx_commit;
             mret (Some contract)
       end)
      (fun error =>
         _ ← trx_rollback;
         if error_truthy error then throw error
         else throw (FailedDependencyException
                       "Some dependency failed while updating contract status"
                       424 "FAILED_DEPENDENCY")).
End ChangeStatus.

(** ** queryBuilder *)

Module User.
Record t := mk {
  id : Z;
  name : string;
  countryId : Z;
  roles : list string
}.
End User.

(** Modelled from the spec: App/Services/User is not among the sources;
    [userService.checkUserRole(user, names)] is the capability check
    [hasAnyRole(user, roleNames) -> bool]. *)
Definition checkUserRole (user : User.t) (names : list string) : bool :=
  existsb (fun r => bool_decide (r ∈ names)) (User.roles user).

(** The restrictions a query on contracts or drafts accumulates. *)
Inductive Where :=
| WhereCountryId (v : Z)                (* [.where('countryId', v)] *)
| AndWhereGovernmentBehalf (b : bool)   (* [.andWhere('governmentBehalf', b)] *)
| WhereHasIsp (name : string).          (* [.whereHas('isp', q => q.where('name', name))] *)

(** The restrictions a query on LTAs accumulates. *)
Inductive LtaWhere :=
| LtaWhereCountryId (v : Z)             (* [.where('countryId', v)] *)
| LtaWhereHasIsps (name : string).      (* [.whereHas('isps', q => q.where('name', name))] *)

Module Queries.
Record t := mk {
  query : list Where;
  draftQuery : list Where;
  ltaQuery : list LtaWhere
}.
End Queries.

Section QueryBuilder.
Variable roles : roles.t.

Definition queryBuilder (user : User.t) : Queries.t :=
  let query : list Where := [] in
  let draftQuery : list Where := [] in
  let ltaQuery : list LtaWhere := [] in
  if negb (checkUserRole user [roles.gigaAdmin roles]) then
    let query := query ++ [WhereCountryId (User.countryId user)] in
    let draftQuery := draftQuery ++ [WhereCountryId (User.countryId user)] in
    let ltaQuery := ltaQuery ++ [LtaWhereCountryId (User.countryId user)] in
    let '(query, draftQuery) :=
      if checkUserRole user [roles.government roles] then
        (query ++ [AndWhereGovernmentBehalf true],
         draftQuery ++ [AndWhereGovernmentBehalf true])
      else (query, draftQuery) in
    let '(query, draftQuery, ltaQuery) :=
      if checkUserRole user [roles.isp roles] then
        (query ++ [WhereHasIsp (User.name user)],
         draftQuery ++ [WhereHasIsp (User.name user)],
         ltaQuery ++ [LtaWhereHasIsps (User.name user)])
      else (query, draftQuery, ltaQuery) in
    Queries.mk query draftQuery ltaQuery
  else Queries.mk query draftQuery ltaQuery.
End QueryBuilder.

(** *** What a built query selects *)

(** The linked ISP of a row is named [name]. *)
Definition isp_named (db : Db) (ispId : option Z) (name : string) : bool :=
  existsb (fun i => bool_decide (Some (Isp.id i) = ispId) && String.eqb (Isp.name i) name)
          (isps db).

(** The linked ISP set of an LTA contains an ISP named [name]. *)
Definition isps_contain (db : Db) (ltaId : Z) (name : string) : bool :=
  existsb (fun i => bool_decide ((ltaId, Isp.id i) ∈ lta_isps db) && String.eqb (Isp.name i) name)
          (isps db).

Definition contract_satisfies (db : Db) (c : Contract.t) (w : Where) : bool :=
  match w with
  | WhereCountryId v => Contract.countryId c =? v
  | AndWhereGovernmentBehalf b => Bool.eqb (Contract.governmentBehalf c) b
  | WhereHasIsp name => isp_named db (Some (Contract.ispId c)) name
  end.

Definition draft_satisfies (db : Db) (d : Draft.t) (w : Where) : bool :=
  match w with
  | WhereCountryId v => bool_decide (Draft.countryId d = Some v)
  | AndWhereGovernmentBehalf b => Bool.eqb (Draft.governmentBehalf d) b
  | WhereHasIsp name => isp_named db (Draft.ispId d) name
  end.

Definition lta_satisfies (db : Db) (l : Lta.t) (w : LtaWhere) : bool :=
  match w with
  | LtaWhereCountryId v => Lta.countryId l =? v
  | LtaWhereHasIsps name => isps_contain db (Lta.id l) name
  end.

(** The rows a query returns: those that satisfy every restriction. *)
Definition visible_contract (db : Db) (q : list Where) (c : Contract.t) : bool :=
  forallb (contract_satisfies db c) q.
Definition visible_draft (db : Db) (q : list Where) (d : Draft.t) : bool :=
  forallb (draft_satisfies db d) q.
Definition visible_lta (db : Db) (q : list LtaWhere) (l : Lta.t) : bool :=
  forallb (lta_satisfies db l) q.

(** ** Models with their preloaded relations *)

Module ContractModel.
(** A contract as [getContractList] loads it: the row, the preloaded
    [country], [lta], [isp], [expectedMetrics] and [schools], and the
    aggregates [$extras.total_payments] and [$extras.schools_count]. *)
Record t := mk {
  row : Contract.t;
  country : option Country.t;
  lta : option Lta.t;
  isp : option Isp.t;
  expectedMetrics : list ExpectedMetric.t;
  schools : list School.t;
  total_payments : option Z;
  schools_count : Z
}.
End ContractModel.

Module DraftModel.
Record t := mk {
  row : Draft.t;
  country : option Country.t;
  lta : option Lta.t;
  isp : option Isp.t
}.
End DraftModel.

Module MeasureAvg.
(** A row of the aggregate query on measures: [metricId] and
    [$extras.avg]. *)
Record t := mk { metricId : Z; avg : Q }.
End MeasureAvg.

(** ** The DTOs of the list view *)

Module SchoolsConnection.
Record t := mk {
  withoutConnection : Z;
  atLeastOneBellowAvg : Z;
  allEqualOrAboveAvg : Z
}.
End SchoolsConnection.

Module CountrySummary.
Record t := mk { name : string; flagUrl : string; code : string }.
End CountrySummary.

Module ContractList.
(** The interface [ContractList]; [status] is [None] when the status of
    the row has no label in the enum. *)
Record t := mk {
  id : Z;
  name : string;
  isp : option string;
  status : option string;
  country : option CountrySummary.t;
  schoolsConnection : option SchoolsConnection.t;
  numberOfSchools : option Z;
  totalSpent : option Z;
  ltaId : option Z
}.
End ContractList.

Module ContractListDTO.
Record t := mk {
  ltas : gmap string (list ContractList.t);
  contracts : list ContractList.t
}.
End ContractListDTO.

(** What [schoolsMeasures[key]] may hold: the array of aggregate rows that
    [getContractList] stores under a school name, or an object that maps
    school names to such arrays (the shape [contractListDTO] indexes). *)
Inductive Slot :=
| SlotArray (rows : list MeasureAvg.t)
| SlotObject (bySchool : gmap string (list MeasureAvg.t)).

(** What reaches the [schoolMeasures] parameter of [evaluateMeasures]. *)
Inductive MeasuresArg :=
| MUndefined                              (* [undefined] *)
| MNotArray                               (* a number or a row object: no [length] *)
| MArray (rows : list MeasureAvg.t).

(** [rows[key]] for a string key: an array has the own properties
    ["length"] and its indices, which hold a number and a row object.
    (School names are taken not to be names of [Array.prototype] members.) *)
Definition array_prop (rows : list MeasureAvg.t) (key : string) : MeasuresArg :=
  if String.eqb key "length" then MNotArray
  else if existsb (fun i => String.eqb key (NilEmpty.string_of_uint (Nat.to_uint i)))
                  (seq 0 (length rows))
       then MNotArray
       else MUndefined.

(** [schoolsMeasures[contractName][schoolName]] *)
Definition measures_of (schoolsMeasures : gmap string Slot)
    (contractName schoolName : string) : Result MeasuresArg :=
  match schoolsMeasures !! contractName with
  | None => Err (TypeError "Cannot read properties of undefined")
  | Some (SlotArray rows) => Ok (array_prop rows schoolName)
  | Some (SlotObject bySchool) =>
      match bySchool !! schoolName with
      | None => Ok MUndefined
      | Some rows => Ok (MArray rows)
      end
  end.

(** [a < b] on metric values. *)
Definition Qltb (a b : Q) : bool := negb (Qle_bool b a).

(** [x?.$extras.avg < v]: the comparison is false when [x] is undefined. *)
Definition avg_lt (x : option MeasureAvg.t) (v : Q) : bool :=
  match x with
  | Some sm => Qltb (MeasureAvg.avg sm) v
  | None => false
  end.

(** [rows.findIndex(p)]: the index of the first row that satisfies [p], or
    [-1]. *)
Fixpoint findIndex (p : MeasureAvg.t -> bool) (rows : list MeasureAvg.t) : Z :=
  match rows with
  | [] => -1
  | sm :: rest =>
      if p sm then 0
      else let i := findIndex p rest in if i <? 0 then -1 else i + 1
  end.

(** [rows[index]] *)
Definition at_index (rows : list MeasureAvg.t) (index : Z) : option MeasureAvg.t :=
  if index <? 0 then None else rows !! Z.to_nat index.

Definition incr_withoutConnection (sc : SchoolsConnection.t) : SchoolsConnection.t :=
  SchoolsConnection.mk (SchoolsConnection.withoutConnection sc + 1)
    (SchoolsConnection.atLeastOneBellowAvg sc) (SchoolsConnection.allEqualOrAboveAvg sc).
Definition incr_atLeastOneBellowAvg (sc : SchoolsConnection.t) : SchoolsConnection.t :=
  SchoolsConnection.mk (SchoolsConnection.withoutConnection sc)
    (SchoolsConnection.atLeastOneBellowAvg sc + 1) (SchoolsConnection.allEqualOrAboveAvg sc).
Definition incr_allEqualOrAboveAvg (sc : SchoolsConnection.t) : SchoolsConnection.t :=
  SchoolsConnection.mk (SchoolsConnection.withoutConnection sc)
    (SchoolsConnection.atLeastOneBellowAvg sc) (SchoolsConnection.allEqualOrAboveAvg sc + 1).

(** The [for (const em of expectedMetrics)] loop of [evaluateMeasures] and
    the statement after it.  The two keys are compared through
    [toString()], which on integer keys is equality. *)
Fixpoint evaluateMeasures_loop (schoolMeasures : list MeasureAvg.t)
    (expectedMetrics : list ExpectedMetric.t) (schoolsConnection : SchoolsConnection.t)
  : SchoolsConnection.t :=
  match expectedMetrics with
  | [] => incr_allEqualOrAboveAvg schoolsConnection
  | em :: rest =>
      let index :=
        findIndex (fun sm => MeasureAvg.metricId sm =? ExpectedMetric.metricId em)
                  schoolMeasures in
      if negb (bool_decide (is_Some (at_index schoolMeasures index)))
         || avg_lt (at_index schoolMeasures index) (ExpectedMetric.value em)
      then incr_atLeastOneBellowAvg schoolsConnection
      else evaluateMeasures_loop schoolMeasures rest schoolsConnection
  end.

(** [evaluateMeasures] of app/DTOs/Contract.ts; the result is the counter
    object after the call. *)
Definition evaluateMeasures (schoolMeasures : MeasuresArg)
    (expectedMetrics : list ExpectedMetric.t) (schoolsConnection : SchoolsConnection.t)
  : Result SchoolsConnection.t :=
  match schoolMeasures with
  | MUndefined => Err (TypeError "Cannot read properties of undefined (reading 'length')")
  | MNotArray => Ok (incr_withoutConnection schoolsConnection)
  | MArray rows =>
      if Z.of_nat (length rows) =? 0
      then Ok (incr_withoutConnection schoolsConnection)
      else Ok (evaluateMeasures_loop rows expectedMetrics schoolsConnection)
  end.

Module Part001.
(** The variant of [evaluateMeasures] in src/unnamed/part_001: the
    condition of the loop is [schoolMeasures[index]?.$extras.avg < em.value]
    alone. *)
Fixpoint evaluateMeasures_loop (schoolMeasures : list MeasureAvg.t)
    (expectedMetrics : list ExpectedMetric.t) (schoolsConnection : SchoolsConnection.t)
  : SchoolsConnection.t :=
  match expectedMetrics with
  | [] => incr_allEqualOrAboveAvg schoolsConnection
  | em :: rest =>
      let index :=
        findIndex (fun sm => MeasureAvg.metricId sm =? ExpectedMetric.metricId em)
                  schoolMeasures in
      if avg_lt (at_index schoolMeasures index) (ExpectedMetric.value em)
      then incr_atLeastOneBellowAvg schoolsConnection
      else evaluateMeasures_loop schoolMeasures rest schoolsConnection
  end.

Definition evaluateMeasures (schoolMeasures : MeasuresArg)
    (expectedMetrics : list ExpectedMetric.t) (schoolsConnection : SchoolsConnection.t)
  : Result SchoolsConnection.t :=
  match schoolMeasures with
  | MUndefined => Err (TypeError "Cannot read properties of undefined (reading 'length')")
  | MNotArray => Ok (incr_withoutConnection schoolsConnection)
  | MArray rows =>
      if Z.of_nat (length rows) =? 0
      then Ok (incr_withoutConnection schoolsConnection)
      else Ok (evaluateMeasures_loop rows expectedMetrics schoolsConnection)
  end.
End Part001.

(** [formatLtaList]: the reduction adds the key [current.name] with an
    empty array to a copy of the aggregate. *)
Definition formatLtaList (ltas : list Lta.t) : gmap string (list ContractList.t) :=
  foldl (fun aggregate current => <[Lta.name current := []]> aggregate) ∅ ltas.

(** [if (ltas[name]) ltas[name].push(entry)]: an array is truthy, also
    when it is empty.  (LTA names are taken not to be names of
    [Object.prototype] members.) *)
Definition push_if_bucket (name : string) (entry : ContractList.t)
    (ltas : gmap string (list ContractList.t)) : gmap string (list ContractList.t) :=
  match ltas !! name with
  | Some bucket => <[name := bucket ++ [entry]]> ltas
  | None => ltas
  end.

(** The two accumulators of [contractListDTO]: [ltas] and [contracts]. *)
Definition place (ltaId : option Z) (lta : option Lta.t) (entry : ContractList.t)
    (acc : ContractListDTO.t) : Result ContractListDTO.t :=
  if truthy ltaId then
    match lta with
    | None => Err (TypeError "Cannot read properties of undefined (reading 'name')")
    | Some l =>
        Ok (ContractListDTO.mk (push_if_bucket (Lta.name l) entry (ContractListDTO.ltas acc))
                               (ContractListDTO.contracts acc))
    end
  else
    Ok (ContractListDTO.mk (ContractListDTO.ltas acc)
                           (ContractListDTO.contracts acc ++ [entry])).

(** [list.map(f)] used as a loop, for a body that may throw: the elements
    are visited in order and the first exception ends the loop. *)
Fixpoint for_each {A S} (f : A -> S -> Result S) (l : list A) (s : S) : Result S :=
  match l with
  | [] => Ok s
  | x :: rest =>
      match f x s with
      | Ok s' => for_each f rest s'
      | Err e => Err e
      end
  end.

Definition countrySummary (c : Country.t) : CountrySummary.t :=
  CountrySummary.mk (Country.name c) (Country.flagUrl c) (Country.code c).

Section ListView.
Variable laterStatuses : list string.
(** [utils.getPercentage(total, part)] and [parseInt] are parameters: the
    first is not among the sources, and both compute on JavaScript
    numbers. *)
Variable getPercentage : Z -> option Z -> Z.
Variable parseInt : string -> Z.

(** [draftData] *)
Definition draftData (draft : DraftModel.t) : ContractList.t :=
  ContractList.mk
    (Draft.id (DraftModel.row draft))
    (Draft.name (DraftModel.row draft))
    (Isp.name <$> DraftModel.isp draft)
    (Some "Draft")
    (countrySummary <$> DraftModel.country draft)
    None
    ((fun l => Z.of_nat (length l)) <$> Draft.schools (DraftModel.row draft))
    None
    (Draft.ltaId (DraftModel.row draft)).

(** The body of [drafts.map(...)]. *)
Definition draft_step (draft : DraftModel.t) (acc : ContractListDTO.t)
  : Result ContractListDTO.t :=
  place (Draft.ltaId (DraftModel.row draft)) (DraftModel.lta draft) (draftData draft) acc.

(** The counters of one contract: [evaluateMeasures] on each school, when
    the contract has schools. *)
Definition connection_of (schoolsMeasures : gmap string Slot) (contract : ContractModel.t)
  : Result SchoolsConnection.t :=
  let schoolsConnection := SchoolsConnection.mk 0 0 0 in
  if negb (Z.of_nat (length (ContractModel.schools contract)) =? 0) then
    for_each
      (fun school sc =>
         match measures_of schoolsMeasures
                 (Contract.name (ContractModel.row contract)) (School.name school) with
         | Ok arg => evaluateMeasures arg (ContractModel.expectedMetrics contract) sc
         | Err e => Err e
         end)
      (ContractModel.schools contract) schoolsConnection
  else Ok schoolsConnection.

(** [contractData] *)
Definition contractData (schoolsMeasures : gmap string Slot) (contract : ContractModel.t)
  : Result ContractList.t :=
  match connection_of schoolsMeasures contract with
  | Err e => Err e
  | Ok schoolsConnection =>
      match ContractModel.isp contract with
      | None => Err (TypeError "Cannot read properties of undefined (reading 'name')")
      | Some isp =>
          match ContractModel.country contract with
          | None => Err (TypeError "Cannot read properties of undefined (reading 'name')")
          | Some country =>
              let count := ContractModel.schools_count contract in
              Ok (ContractList.mk
                    (Contract.id (ContractModel.row contract))
                    (Contract.name (ContractModel.row contract))
                    (Some (Isp.name isp))
                    (ContractStatus.label laterStatuses
                       (Contract.status (ContractModel.row contract)))
                    (Some (countrySummary country))
                    (Some (SchoolsConnection.mk
                             (getPercentage count
                                (Some (SchoolsConnection.withoutConnection schoolsConnection)))
                             (getPercentage count
                                (Some (SchoolsConnection.atLeastOneBellowAvg schoolsConnection)))
                             (getPercentage count
                                (Some (SchoolsConnection.allEqualOrAboveAvg schoolsConnection)))))
                    (Some count)
                    (Some (getPercentage
                             (parseInt (Contract.budget (ContractModel.row contract)))
                             (ContractModel.total_payments contract)))
                    (Contract.ltaId (ContractModel.row contract)))
          end
      end
  end.

(** The body of [data.map(...)]. *)
Definition contract_step (schoolsMeasures : gmap string Slot) (contract : ContractModel.t)
    (acc : ContractListDTO.t) : Result ContractListDTO.t :=
  match contractData schoolsMeasures contract with
  | Err e => Err e
  | Ok entry =>
      place (Contract.ltaId (ContractModel.row contract)) (ContractModel.lta contract) entry acc
  end.

Definition contractListDTO (data : list ContractModel.t) (drafts : list DraftModel.t)
    (ltasData : list Lta.t) (schoolsMeasures : gmap string Slot)
  : Result ContractListDTO.t :=
  let ltas := formatLtaList ltasData in
  let contracts : list ContractList.t := [] in
  match for_each draft_step drafts (ContractListDTO.mk ltas contracts) with
  | Err e => Err e
  | Ok acc => for_each (contract_step schoolsMeasures) data acc
  end.
End ListView.

(** ** getContractList *)

(** [.preload('country').preload('lta').preload('isp')
     .preload('expectedMetrics').withAggregate('payments', sum)
     .preload('schools').withCount('schools')] *)
Definition preload_contract (db : Db) (c : Contract.t) : ContractModel.t :=
  let linked :=
    List.filter (fun s => bool_decide ((Contract.id c, School.id s) ∈ contract_schools db))
                (schools db) in
  let paid := List.filter (fun p => Payment.contractId p =? Contract.id c) (payments db) in
  ContractModel.mk c
    (List.find (fun k => Country.id k =? Contract.countryId c) (countries db))
    (l ← Contract.ltaId c; List.find (fun x => Lta.id x =? l) (ltas db))
    (List.find (fun i => Isp.id i =? Contract.ispId c) (isps db))
    (List.filter (fun em => ExpectedMetric.contractId em =? Contract.id c) (expected_metrics db))
    linked
    (match paid with
     | [] => None
     | _ => Some (foldr Z.add 0 (Payment.amount <$> paid))
     end)
    (Z.of_nat (length linked)).

(** [.preload('country').preload('lta').preload('isp')] on drafts *)
Definition preload_draft (db : Db) (d : Draft.t) : DraftModel.t :=
  DraftModel.mk d
    (k ← Draft.countryId d; List.find (fun x => Country.id x =? k) (countries db))
    (l ← Draft.ltaId d; List.find (fun x => Lta.id x =? l) (ltas db))
    (i ← Draft.ispId d; List.find (fun x => Isp.id x =? i) (isps db)).

(** [Measure.query().avg('value').where('school_id', id)
     .select('metric_id').groupBy('metric_id')]: one row per metric the
    school was measured on, with the average of its values. *)
Definition Measure_avg_by_metric (db : Db) (schoolId : Z) : list MeasureAvg.t :=
  let rows := List.filter (fun m => Measure.schoolId m =? schoolId) (measures db) in
  (fun metricId =>
     let values :=
       Measure.value <$> List.filter (fun m => Measure.metricId m =? metricId) rows in
     MeasureAvg.mk metricId
       (foldr Qplus 0%Q values / inject_Z (Z.of_nat (length values)))%Q)
  <$> remove_dups (Measure.metricId <$> rows).

(** The two nested loops that fill [schoolsMeasures]: the key is the name
    of the school. *)
Definition collect_schoolsMeasures (db : Db) (contracts : list ContractModel.t)
  : gmap string (list MeasureAvg.t) :=
  foldl
    (fun schoolsMeasures contract =>
       if Z.of_nat (length (ContractModel.schools contract)) =? 0 then schoolsMeasures
       else
         foldl
           (fun schoolsMeasures school =>
              <[School.name school := Measure_avg_by_metric db (School.id school)]>
                schoolsMeasures)
           schoolsMeasures (ContractModel.schools contract))
    ∅ contracts.

Section GetContractList.
Variable roles : roles.t.
Variable laterStatuses : list string.
Variable getPercentage : Z -> option Z -> Z.
Variable parseInt : string -> Z.

(** The queries run outside a transaction: they read the committed
    tables. *)
Definition getContractList (user : User.t) : M ContractListDTO.t := fun s =>
  let db := committed s in
  let q := queryBuilder roles user in
  let contracts :=
    preload_contract db <$>
      List.filter (visible_contract db (Queries.query q)) (contracts db) in
  let drafts :=
    preload_draft db <$>
      List.filter (visible_draft db (Queries.draftQuery q)) (drafts db) in
  let ltas := List.filter (visible_lta db (Queries.ltaQuery q)) (ltas db) in
  let schoolsMeasures := collect_schoolsMeasures db contracts in
  (contractListDTO laterStatuses getPercentage parseInt
     contracts drafts ltas (SlotArray <$> schoolsMeasures), s).
End GetContractList.

(** ** Vocabulary of the properties *)

(** *** The creation workflow *)

(** Every attachment, school and metric the payload refers to exists. *)
Definition references_ok (data : ContractCreation.t) (db : Db) : bool :=
  forallb (fun a => bool_decide (a ∈ attachments db))
          (destructObjArrayWithId (default [] (ContractCreation.attachments data)))
  && forallb (fun k => bool_decide (k ∈ School.id <$> schools db))
             (destructObjArrayWithId (ContractCreation.schools data))
  && forallb (fun m => bool_decide (MetricValue.metricId m ∈ metrics db))
             (ContractCreation.expectedMetrics data).

(** The payload names a draft and the store has no draft with that key. *)
Definition draft_missing (data : ContractCreation.t) (db : Db) : Prop :=
  truthy (ContractCreation.draftId data) = true /\
  List.find (fun d => Draft.id d =? default 0 (ContractCreation.draftId data)) (drafts db)
  = None.

(** The store refuses none of the statements in [ops]. *)
Definition available (s : Storage) (ops : list StorageOp) : Prop :=
  Forall (fun op => outage s op = false) ops.

(** The connection after the transaction was closed without a commit. *)
Definition rolled_back (s : Storage) : Storage :=
  mkStorage (committed s) None (outage s).

(** The keys of the store are those a key sequence and the foreign key of
    [status_transitions] allow: contract keys lie below the next key, every
    transition refers to a contract, draft keys are positive. *)
Definition Db_keys_ok (db : Db) : Prop :=
  (forall c, c ∈ contracts db -> Contract.id c < contracts_id_seq db) /\
  (forall t, t ∈ status_transitions db ->
     exists c, c ∈ contracts db /\ Contract.id c = StatusTransition.contractId t) /\
  (forall d, d ∈ drafts db -> 0 < Draft.id d).

(** *** The classifier, in the words of the design *)

Inductive Classification :=
| WithoutConnection
| AtLeastOneBelowAverage
| AllAtOrAboveAverage.

(** The map of measured averages that an array of aggregate rows stands
    for (the first row of a metric is the one [findIndex] meets). *)
Definition averages_of (rows : list MeasureAvg.t) : gmap Z Q :=
  list_to_map ((fun sm => (MeasureAvg.metricId sm, MeasureAvg.avg sm)) <$> rows).

(** The school has no average for the metric, or the average is strictly
    less than the expected target. *)
Definition below_target (averages : gmap Z Q) (em : ExpectedMetric.t) : bool :=
  match averages !! ExpectedMetric.metricId em with
  | None => true
  | Some avg => Qltb avg (ExpectedMetric.value em)
  end.

(** Step 2 and 3 of the algorithm: the expected metrics in their given
    order, the first failing one decides. *)
Fixpoint classify_expected (averages : gmap Z Q) (expected : list ExpectedMetric.t)
  : Classification :=
  match expected with
  | [] => AllAtOrAboveAverage
  | em :: rest =>
      if below_target averages em then AtLeastOneBelowAverage
      else classify_expected averages rest
  end.

Definition classify (averages : gmap Z Q) (expected : list ExpectedMetric.t)
  : Classification :=
  match map_to_list averages with
  | [] => WithoutConnection
  | _ => classify_expected averages expected
  end.

(** The counter a classification adds one to. *)
Definition tally (c : Classification) (sc : SchoolsConnection.t) : SchoolsConnection.t :=
  match c with
  | WithoutConnection => incr_withoutConnection sc
  | AtLeastOneBelowAverage => incr_atLeastOneBellowAvg sc
  | AllAtOrAboveAverage => incr_allEqualOrAboveAvg sc
  end.

(** *** The list view *)

(** The row is assigned to an LTA named [name]. *)
Definition assigned_to (name : string) (ltaId : option Z) (lta : option Lta.t) : bool :=
  truthy ltaId && bool_decide (Lta.name <$> lta = Some name).

Definition draft_assigned_to (name : string) (d : DraftModel.t) : bool :=
  assigned_to name (Draft.ltaId (DraftModel.row d)) (DraftModel.lta d).
Definition contract_assigned_to (name : string) (c : ContractModel.t) : bool :=
  assigned_to name (Contract.ltaId (ContractModel.row c)) (ContractModel.lta c).
Definition draft_unassigned (d : DraftModel.t) : bool :=
  negb (truthy (Draft.ltaId (DraftModel.row d))).
Definition contract_unassigned (c : ContractModel.t) : bool :=
  negb (truthy (Contract.ltaId (ContractModel.row c))).

Section ListViewVocabulary.
Variable laterStatuses : list string.
Variable getPercentage : Z -> option Z -> Z.
Variable parseInt : string -> Z.

(** The entry [contractData] builds for a contract, when it builds one. *)
Definition contract_entry (schoolsMeasures : gmap string Slot) (c : ContractModel.t)
  : option ContractList.t :=
  match contractData laterStatuses getPercentage parseInt schoolsMeasures c with
  | Ok entry => Some entry
  | Err _ => None
  end.

(** The sentence of the design on rows assigned to an LTA, as it is
    written: whenever the builder returns, the entry of every draft and
    of every contract that is assigned to an LTA is in the bucket under
    the name of that LTA. *)
Definition assigned_rows_are_bucketed (data : list ContractModel.t)
    (drafts : list DraftModel.t) (ltasData : list Lta.t)
    (schoolsMeasures : gmap string Slot) : Prop :=
  forall r,
    contractListDTO laterStatuses getPercentage parseInt data drafts ltasData schoolsMeasures
    = Ok r ->
    (forall d l, d ∈ drafts -> truthy (Draft.ltaId (DraftModel.row d)) = true ->
       DraftModel.lta d = Some l ->
       exists bucket, ContractListDTO.ltas r !! Lta.name l = Some bucket
                      /\ draftData d ∈ bucket) /\
    (forall c l e, c ∈ data -> truthy (Contract.ltaId (ContractModel.row c)) = true ->
       ContractModel.lta c = Some l ->
       contract_entry schoolsMeasures c = Some e ->
       exists bucket, ContractListDTO.ltas r !! Lta.name l = Some bucket /\ e ∈ bucket).
End ListViewVocabulary.

(** *** Rows placed by a loop of the list view *)

Section Placement.
Context {X : Type}.
Variable ltaId_of : X -> option Z.
Variable lta_of : X -> option Lta.t.
Variable entry_of : X -> Result ContractList.t.

(** The shape both loops of [contractListDTO] have: build the entry of the
    row, then place it. *)
Definition placing (x : X) (acc : ContractListDTO.t) : Result ContractListDTO.t :=
  match entry_of x with
  | Err e => Err e
  | Ok entry => place (ltaId_of x) (lta_of x) entry acc
  end.

(** The entry of a row, when one is built. *)
Definition built (x : X) : option ContractList.t :=
  match entry_of x with
  | Ok entry => Some entry
  | Err _ => None
  end.
End Placement.

(** *** The service and its measures map *)

(** The contracts the scoped query of [getContractList] returns, with
    their relations. *)
Definition scoped_contracts (roles : roles.t) (user : User.t) (db : Db)
  : list ContractModel.t :=
  preload_contract db <$>
    List.filter (visible_contract db (Queries.query (queryBuilder roles user)))
                (contracts db).

(** [schoolsMeasures[school.name]]: the lookup of [contractDeatilsDTO] and
    of the part_001 variant of [contractListDTO] in the map the service
    builds. *)
Definition measures_by_school (schoolsMeasures : gmap string (list MeasureAvg.t))
    (schoolName : string) : MeasuresArg :=
  match schoolsMeasures !! schoolName with
  | Some rows => MArray rows
  | None => MUndefined
  end.

Definition is_TypeError (e : Exception) : Prop := exists detail, e = TypeError detail.

(** ** Sample data *)

Module Sample.
Definition brazil : Country.t := Country.mk 1 "Brazil" "BR" "br.svg".
Definition vivo : Isp.t := Isp.mk 1 "Vivo".
Definition schoolA : School.t := School.mk 1 "School A".
Definition lta1 : Lta.t := Lta.mk 1 "LTA 1" 1.

(** A contract in status [Sent] with one school and one expected metric. *)
Definition contract1 : Contract.t :=
  Contract.mk 1 "Contract 1" 1 false None 1 "1000" 1 0 0 1 9 1.

Definition draft7 : Draft.t :=
  Draft.mk 7 "Draft 7" (Some 1) false None (Some 1) None 1650000000.

Definition db : Db :=
  mkDb [contract1] 2 [draft7] [lta1] [(1, 1)] [vivo] [brazil] [schoolA]
       [1; 2; 3; 4] [5] [] [(1, 1)]
       [ExpectedMetric.mk 1 1 10%Q] []
       [Measure.mk 1 1 12%Q] [].

Definition storage : Storage := mkStorage db None (fun _ => false).

(** The store refuses to insert status transitions. *)
Definition storage_refusing_transitions : Storage :=
  mkStorage db None
    (fun op => match op with StatusTransitionCreate => true | _ => false end).

Definition metricValues : list MetricValue.t :=
  [MetricValue.mk 1 1%Q; MetricValue.mk 2 1%Q; MetricValue.mk 3 1%Q; MetricValue.mk 4 1%Q].

(** A payload that promotes draft 7 and carries a [status] of its own. *)
Definition fromDraft : ContractCreation.t :=
  ContractCreation.mk (Some 7) 1 false "Contract 2" None 1 "1000" 1 0 0 1 9
    (Some [ObjWithId.mk 5]) [ObjWithId.mk 1] metricValues (Some 0).

(** The same payload with a school key that no school has. *)
Definition invalidSchool : ContractCreation.t :=
  ContractCreation.mk (Some 7) 1 false "Contract 2" None 1 "1000" 1 0 0 1 9
    None [ObjWithId.mk 1123] metricValues None.

(** The same payload with a draft key that no draft has. *)
Definition unknownDraft : ContractCreation.t :=
  ContractCreation.mk (Some 100001) 1 false "Contract 2" None 1 "1000" 1 0 0 1 9
    None [ObjWithId.mk 1] metricValues None.

Definition admin : User.t := User.mk 1 "Ada" 1 ["Giga Admin"].
Definition ispUser : User.t := User.mk 2 "Vivo" 1 ["ISP"].
Definition roleNames : roles.t := roles.mk "Giga Admin" "Government" "ISP".
Definition laterStatuses : list string :=
  ["Confirmed"; "Ongoing"; "Expired"; "Completed"].

(** Stand-ins for the two numeric helpers. *)
Definition getPercentage (total : Z) (part : option Z) : Z :=
  match part with
  | Some p => if (p =? 0) || (total =? 0) then 0 else (200 * p + total) / (2 * total)
  | None => 0
  end.
Definition parseInt (s : string) : Z := 1000.

(** The contract that [createContract fromDraft] inserts into [db]. *)
Definition contract2 : Contract.t :=
  Contract.mk 2 "Contract 2" 1 false None 1 "1000" 1 0 0 1 9 1.

(** A draft assigned to LTA 1, as the draft query loads it. *)
Definition draftInLta : DraftModel.t :=
  DraftModel.mk (Draft.mk 8 "Draft 8" (Some 1) false (Some 1) (Some 1) None 1650000001)
                (Some brazil) (Some lta1) (Some vivo).

(** A contract assigned to LTA 1 with one school, a contract and a draft
    without LTA, as the queries load them, and a measures map of the shape
    [contractListDTO] indexes. *)
Definition contractInLta : ContractModel.t :=
  ContractModel.mk (Contract.mk 3 "Contract 3" 1 false (Some 1) 1 "1000" 1 0 0 1 9 1)
    (Some brazil) (Some lta1) (Some vivo) [ExpectedMetric.mk 3 1 10%Q] [schoolA]
    (Some 500) 1.
Definition contractLoose : ContractModel.t :=
  ContractModel.mk contract1 (Some brazil) None (Some vivo) [] [] None 0.
Definition draftLoose : DraftModel.t :=
  DraftModel.mk draft7 (Some brazil) None (Some vivo).
Definition nestedMeasures : gmap string Slot :=
  {[ "Contract 3" := SlotObject {[ "School A" := [MeasureAvg.mk 1 12%Q] ]} ]}.
End Sample.

(** ** Proof automation *)

(** Unfold the monad and the statements of a workflow. *)
Ltac unfold_workflow :=
  unfold createContract, changeStatus, getContractList, try_catch, mbind, M_bind, mret, M_ret,
    Database_transaction, Contract_create, attachments_attach, schools_attach,
    createExpectedMetrics, Draft_findBy_id, StatusTransition_create, Draft_delete,
    Contract_find, Contract_save, trx_commit, trx_rollback, with_client, throw,
    rolled_back, error_truthy in *.

(** Follow the next branch of a workflow: a refused statement, a foreign-key
    check, a truthiness test or a lookup. *)
Ltac run_step :=
  match goal with
  | |- context [outage ?s ?op] => destruct (outage s op) eqn:?
  | |- context [forallb ?f ?l] => destruct (forallb f l) eqn:?
  | |- context [truthy ?x] => destruct (truthy x) eqn:?
  | |- context [List.find ?f ?l] => destruct (List.find f l) eqn:?
  end; simpl.

Ltac run_workflow := unfold_workflow; simpl; repeat run_step.

(** Turn boolean tests into the propositions they decide. *)
Ltac bool_facts :=
  repeat match goal with
  | H : _ && _ = true |- _ => apply andb_true_iff in H as [? ?]
  | H : (_ =? _) = true |- _ => apply Z.eqb_eq in H
  | H : Bool.eqb _ true = true |- _ => apply Bool.eqb_prop in H
  | H : bool_decide _ = true |- _ => apply bool_decide_eq_true in H
  | H : _ /\ _ |- _ => destruct H
  | |- _ && _ = true => apply andb_true_iff; split
  | |- (_ =? _) = true => apply Z.eqb_eq
  | |- bool_decide _ = true => apply bool_decide_eq_true
  | |- Bool.eqb _ true = true => apply Bool.eqb_true_iff
  end.

(** Use the outcome of a finished run. *)
Ltac outcome H := inversion H; subst; clear H; simpl.

(** * The rest of the DTOs and the attachment service *)

(** ** contractCountByStatusDTO *)

Module StatusGroup.
(** A row of the grouped count query: [$attributes.status] and
    [$extras.count] (the store returns a count as a string). *)
Record t := mk { status : Z; count : string }.
End StatusGroup.

Module StatusCount.
Record t := mk { status : option string; count : string }.
End StatusCount.

Module ContractsStatusCount.
Record t := mk { counts : list StatusCount.t; totalCount : Z }.
End ContractsStatusCount.

Section CountView.
Variable laterStatuses : list string.
Variable parseInt : string -> Z.

(** [counts[counts.length] = entry] writes one position past the end of
    the array, which appends the entry. *)
Definition contractCountByStatusDTO (contracts : list StatusGroup.t)
    (totalCount draftsCount : string) : ContractsStatusCount.t :=
  let counts :=
    (fun c => StatusCount.mk (ContractStatus.label laterStatuses (StatusGroup.status c))
                             (StatusGroup.count c)) <$> contracts in
  let counts :=
    counts ++ [StatusCount.mk (ContractStatus.label laterStatuses 0) draftsCount] in
  ContractsStatusCount.mk counts (parseInt totalCount + parseInt draftsCount).
End CountView.

(** ** The detail views *)

Module Attachment.
(** The columns of an attachment that the sources name. *)
Record t := mk { id : Z; url : string }.
End Attachment.

Module Metric.
Record t := mk { id : Z; name : string; unit : string }.
End Metric.

Module ConnectionMedian.
Record t := mk {
  contract_id : Z;
  metric_id : Z;
  median_value : Q;
  metric_name : string;
  unit : string
}.
End ConnectionMedian.

Module LoadedContract.
(** A contract as the detail views receive it: the relations of
    [ContractModel.t] and the [attachments] relation ([None] when it was
    not loaded). *)
Record t := mk {
  contract : ContractModel.t;
  attachments : option (list Attachment.t)
}.
End LoadedContract.

Module ContractDetails.
(** The interface [ContractDetails], with its optional fields as options. *)
Record t := mk {
  id : Z;
  name : string;
  isp : string;
  lta : option string;
  startDate : Z;
  endDate : Z;
  schoolsConnection : option SchoolsConnection.t;
  numberOfSchools : option Z;
  attachments : option (list Attachment.t);
  connectionsMedian : list ConnectionMedian.t
}.
End ContractDetails.

Module ExpectedMetricDTO.
Record t := mk { metricId : Z; metricName : string; metricUnit : string; value : Q }.
End ExpectedMetricDTO.

Module ContractDTO.
(** The interface [ContractDTO]; [status] is [None] when the status of the
    row has no label in the enum. *)
Record t := mk {
  id : Z;
  name : string;
  isp : string;
  lta : string;
  attachments : option (list Attachment.t);
  startDate : Z;
  endDate : Z;
  status : option string;
  country : option CountrySummary.t;
  expectedMetrics : list ExpectedMetricDTO.t;
  budget : string;
  schools : list School.t
}.
End ContractDTO.

(** The sum of the three counters. *)
Definition counted (sc : SchoolsConnection.t) : Z :=
  SchoolsConnection.withoutConnection sc
  + SchoolsConnection.atLeastOneBellowAvg sc
  + SchoolsConnection.allEqualOrAboveAvg sc.

(** The [forEach] of [contractDeatilsDTO]: [evaluateMeasures] on
    [schoolsMeasures[school.name]] for each school, when the contract has
    schools. *)
Definition details_connection_of (schoolsMeasures : gmap string (list MeasureAvg.t))
    (contract : ContractModel.t) : Result SchoolsConnection.t :=
  let schoolsConnection := SchoolsConnection.mk 0 0 0 in
  if negb (Z.of_nat (length (ContractModel.schools contract)) =? 0) then
    for_each
      (fun school sc =>
         evaluateMeasures (measures_by_school schoolsMeasures (School.name school))
                          (ContractModel.expectedMetrics contract) sc)
      (ContractModel.schools contract) schoolsConnection
  else Ok schoolsConnection.

(** The same loop in the part_001 variant of [contractListDTO], which
    calls the part_001 variant of [evaluateMeasures]. *)
Definition part001_connection_of (schoolsMeasures : gmap string (list MeasureAvg.t))
    (contract : ContractModel.t) : Result SchoolsConnection.t :=
  let schoolsConnection := SchoolsConnection.mk 0 0 0 in
  if negb (Z.of_nat (length (ContractModel.schools contract)) =? 0) then
    for_each
      (fun school sc =>
         Part001.evaluateMeasures (measures_by_school schoolsMeasures (School.name school))
                                  (ContractModel.expectedMetrics contract) sc)
      (ContractModel.schools contract) schoolsConnection
  else Ok schoolsConnection.

(** [Promise.all(list.map(async f))] for a body that may throw: the results
    in order, or the exception of the first element that fails. *)
Fixpoint traverse {A B} (f : A -> Result B) (l : list A) : Result (list B) :=
  match l with
  | [] => Ok []
  | x :: rest =>
      match f x with
      | Err e => Err e
      | Ok y =>
          match traverse f rest with
          | Err e => Err e
          | Ok ys => Ok (y :: ys)
          end
      end
  end.

Section Details.
Variable laterStatuses : list string.
Variable getPercentage : Z -> option Z -> Z.

(** [contractDeatilsDTO]: the loop over the schools runs first, then the
    properties of the result are evaluated in the order they are written. *)
Definition contractDeatilsDTO (loaded : LoadedContract.t)
    (schoolsMeasures : gmap string (list MeasureAvg.t))
    (connectionsMedian : list ConnectionMedian.t) : Result ContractDetails.t :=
  let contract := LoadedContract.contract loaded in
  match details_connection_of schoolsMeasures contract with
  | Err e => Err e
  | Ok schoolsConnection =>
      match ContractModel.isp contract with
      | None => Err (TypeError "Cannot read properties of undefined (reading 'name')")
      | Some isp =>
          match ContractModel.lta contract with
          | None => Err (TypeError "Cannot read properties of undefined (reading 'name')")
          | Some lta =>
              let count := ContractModel.schools_count contract in
              Ok (ContractDetails.mk
                    (Contract.id (ContractModel.row contract))
                    (Contract.name (ContractModel.row contract))
                    (Isp.name isp)
                    (Some (Lta.name lta))
                    (Contract.startDate (ContractModel.row contract))
                    (Contract.endDate (ContractModel.row contract))
                    (Some (SchoolsConnection.mk
                             (getPercentage count
                                (Some (SchoolsConnection.withoutConnection schoolsConnection)))
                             (getPercentage count
                                (Some (SchoolsConnection.atLeastOneBellowAvg schoolsConnection)))
                             (getPercentage count
                                (Some (SchoolsConnection.allEqualOrAboveAvg schoolsConnection)))))
                    (Some count)
                    (LoadedContract.attachments loaded)
                    connectionsMedian)
          end
      end
  end.

(** [await em.load('metric')] followed by the object the callback returns:
    [metrics] is the metrics table; an expected metric whose metric is not
    there has [em.metric] null. *)
Definition expectedMetricDTO (metrics : list Metric.t) (em : ExpectedMetric.t)
  : Result ExpectedMetricDTO.t :=
  match List.find (fun m => Metric.id m =? ExpectedMetric.metricId em) metrics with
  | None => Err (TypeError "Cannot read properties of null (reading 'id')")
  | Some metric =>
      Ok (ExpectedMetricDTO.mk (Metric.id metric) (Metric.name metric) (Metric.unit metric)
                               (ExpectedMetric.value em))
  end.

(** [getContractDTO] *)
Definition getContractDTO (metrics : list Metric.t) (loaded : LoadedContract.t)
  : Result ContractDTO.t :=
  let contract := LoadedContract.contract loaded in
  match ContractModel.isp contract with
  | None => Err (TypeError "Cannot read properties of undefined (reading 'name')")
  | Some isp =>
      match ContractModel.lta contract with
      | None => Err (TypeError "Cannot read properties of undefined (reading 'name')")
      | Some lta =>
          match traverse (expectedMetricDTO metrics) (ContractModel.expectedMetrics contract) with
          | Err e => Err e
          | Ok expectedMetrics =>
              Ok (ContractDTO.mk
                    (Contract.id (ContractModel.row contract))
                    (Contract.name (ContractModel.row contract))
                    (Isp.name isp)
                    (Lta.name lta)
                    (LoadedContract.attachments loaded)
                    (Contract.startDate (ContractModel.row contract))
                    (Contract.endDate (ContractModel.row contract))
                    (ContractStatus.label laterStatuses
                       (Contract.status (ContractModel.row contract)))
                    (countrySummary <$> ContractModel.country contract)
                    expectedMetrics
                    (Contract.budget (ContractModel.row contract))
                    (ContractModel.schools contract))
          end
      end
  end.
End Details.

(** ** The attachment service *)

(** The statements of the attachment service. *)
Inductive AttachmentOp :=
| AttachmentFind
| AttachmentCreate
| AttachmentDetach
| AttachmentDelete.

(** What the attachment service works on: the tables (the service runs
    outside a transaction, each statement commits), the [url] column and
    the key sequence of the attachments table, the state of the file
    storage, and the statements the store currently refuses. *)
Record Files (Blobs : Type) := mkFiles {
  tables : Db;
  attachment_url : Z -> string;
  attachments_id_seq : Z;
  blobs : Blobs;
  refused : AttachmentOp -> bool
}.
Arguments mkFiles {Blobs} _ _ _ _ _.
Arguments tables {Blobs} _.
Arguments attachment_url {Blobs} _ _.
Arguments attachments_id_seq {Blobs} _.
Arguments blobs {Blobs} _.
Arguments refused {Blobs} _ _.

Module storage.
(** App/Services/Storage is not among the sources: the three functions
    the attachment service calls are parameters, over a storage state of
    any type. *)
Record t (Blobs : Type) := mk {
  uploadFile : string -> Blobs -> Result string * Blobs;
  deleteFile : string -> Blobs -> Result unit * Blobs;
  generateSasToken : string -> string
}.
Arguments mk {Blobs} _ _ _.
Arguments uploadFile {Blobs} _ _ _.
Arguments deleteFile {Blobs} _ _ _.
Arguments generateSasToken {Blobs} _ _.
End storage.

Definition set_attachments (keys : list Z) (db : Db) : Db :=
  mkDb (contracts db) (contracts_id_seq db) (drafts db) (ltas db)
       (lta_isps db) (isps db) (countries db) (schools db) (metrics db)
       keys (contract_attachments db) (contract_schools db)
       (expected_metrics db) (status_transitions db) (measures db) (payments db).

(** A state-and-error monad over any state. *)
Definition St (S A : Type) : Type := S -> Result A * S.

#[global] Instance St_ret {S} : MRet (St S) := fun A a s => (Ok a, s).

#[global] Instance St_bind {S} : MBind (St S) := fun A B f m s =>
  match m s with
  | (Ok a, s') => f a s'
  | (Err e, s') => (Err e, s')
  end.

Definition St_throw {S A} (e : Exception) : St S A := fun s => (Err e, s).

Definition St_try_catch {S A} (body : St S A) (handler : Exception -> St S A) : St S A :=
  fun s =>
    match body s with
    | (Ok a, s') => (Ok a, s')
    | (Err e, s') => handler e s'
    end.

Section AttachmentService.
Context {Blobs : Type}.
Variable storage : storage.t Blobs.

(** A call of the storage service. *)
Definition call_storage {A} (call : Blobs -> Result A * Blobs) : St (Files Blobs) A :=
  fun f =>
    let '(r, b) := call (blobs f) in
    (r, mkFiles (tables f) (attachment_url f) (attachments_id_seq f) b (refused f)).

(** A statement on the tables. *)
Definition statement {A} (op : AttachmentOp) (stmt : Files Blobs -> Result (A * Files Blobs))
  : St (Files Blobs) A :=
  fun f =>
    if refused f op then (Err (DatabaseError "statement failed"), f)
    else
      match stmt f with
      | Ok (a, f') => (Ok a, f')
      | Err e => (Err e, f)
      end.

(** [Attachment.find(id)] *)
Definition Attachment_find (id : Z) : St (Files Blobs) (option Attachment.t) :=
  statement AttachmentFind (fun f =>
    Ok (if bool_decide (id ∈ attachments (tables f))
        then Some (Attachment.mk id (attachment_url f id))
        else None, f)).

(** [Attachment.create({ url })]: the row takes the next key. *)
Definition Attachment_create (url : string) : St (Files Blobs) Attachment.t :=
  statement AttachmentCreate (fun f =>
    let id := attachments_id_seq f in
    Ok (Attachment.mk id url,
        mkFiles (set_attachments (attachments (tables f) ++ [id]) (tables f))
                (fun k => if k =? id then url else attachment_url f k)
                (id + 1) (blobs f) (refused f))).

(** [attachment.related('contracts').detach()]: every pivot row of the
    attachment goes. *)
Definition contracts_detach (attachment : Attachment.t) : St (Files Blobs) unit :=
  statement AttachmentDetach (fun f =>
    Ok (tt,
        mkFiles (set_contract_attachments
                   (List.filter (fun p => negb (p.2 =? Attachment.id attachment))
                                (contract_attachments (tables f)))
                   (tables f))
                (attachment_url f) (attachments_id_seq f) (blobs f) (refused f))).

(** [attachment.delete()]: the row goes, unless a pivot row still refers
    to it (foreign key). *)
Definition Attachment_delete (attachment : Attachment.t) : St (Files Blobs) unit :=
  statement AttachmentDelete (fun f =>
    if existsb (fun p => p.2 =? Attachment.id attachment) (contract_attachments (tables f))
    then Err (DatabaseError "foreign key violation: attachment")
    else
      Ok (tt,
          mkFiles (set_attachments
                     (List.filter (fun k => negb (k =? Attachment.id attachment))
                                  (attachments (tables f)))
                     (tables f))
                  (attachment_url f) (attachments_id_seq f) (blobs f) (refused f))).

Definition deleteAttachment (attachmentId : Z) : St (Files Blobs) unit :=
  attachment ← Attachment_find attachmentId;
  match attachment with
  | None => St_throw (NotFoundException "Attachment not found" 404 "NOT_FOUND")
  | Some attachment =>
      _ ← call_storage (storage.deleteFile storage (Attachment.url attachment));
      _ ← contracts_detach attachment;
      Attachment_delete attachment
  end.

Definition uploadAttachment (file : string) : St (Files Blobs) Attachment.t :=
  St_try_catch
    (fileUrl ← call_storage (storage.uploadFile storage file);
     attachment ← Attachment_create fileUrl;
     mret attachment)
    (fun error => St_throw error).

(** [getAttachment]: the signed URL is written to the object that is
    returned, which is not saved. *)
Definition getAttachment (attachmentId : Z) : St (Files Blobs) Attachment.t :=
  attachment ← Attachment_find attachmentId;
  match attachment with
  | None => St_throw (NotFoundException "Attachment not found" 404 "NOT_FOUND")
  | Some attachment =>
      mret (Attachment.mk (Attachment.id attachment)
                          (storage.generateSasToken storage (Attachment.url attachment)))
  end.
End AttachmentService.

(** Unfold the monad and the statements of the attachment service. *)
Ltac unfold_attachments :=
  unfold deleteAttachment, uploadAttachment, getAttachment, St_try_catch, St_throw,
    Attachment_find, Attachment_create, contracts_detach, Attachment_delete,
    statement, call_storage, mbind, St_bind, mret, St_ret in *.

(** Follow the next branch of the attachment service. *)
Ltac run_attachments :=
  repeat match goal with
  | |- context [refused ?f ?op] => destruct (refused f op) eqn:?; simpl
  | |- context [@bool_decide ?P ?d] => destruct (@bool_decide P d) eqn:?; simpl
  | |- context [storage.deleteFile ?st ?u ?b] =>
      destruct (storage.deleteFile st u b) as [[[]|?] ?] eqn:?; simpl
  | |- context [storage.uploadFile ?st ?u ?b] =>
      destruct (storage.uploadFile st u b) as [[?|?] ?] eqn:?; simpl
  | |- context [existsb ?p ?l] => destruct (existsb p l) eqn:?; simpl
  end.

(** ** Vocabulary of the further properties *)

(** The school has an average for the metric and it is strictly less than
    the expected target. *)
Definition measured_below (averages : gmap Z Q) (em : ExpectedMetric.t) : bool :=
  match averages !! ExpectedMetric.metricId em with
  | None => false
  | Some avg => Qltb avg (ExpectedMetric.value em)
  end.

(** What the part_001 variant of [evaluateMeasures] computes: only a
    measured average can fail. *)
Definition part001_classify (averages : gmap Z Q) (expected : list ExpectedMetric.t)
  : Classification :=
  match map_to_list averages with
  | [] => WithoutConnection
  | _ => if existsb (measured_below averages) expected
         then AtLeastOneBelowAverage else AllAtOrAboveAverage
  end.

(** The counters never go down and grow by one in total. *)
Definition one_more (sc sc' : SchoolsConnection.t) : Prop :=
  counted sc' = counted sc + 1
  /\ SchoolsConnection.withoutConnection sc <= SchoolsConnection.withoutConnection sc'
  /\ SchoolsConnection.atLeastOneBellowAvg sc <= SchoolsConnection.atLeastOneBellowAvg sc'
  /\ SchoolsConnection.allEqualOrAboveAvg sc <= SchoolsConnection.allEqualOrAboveAvg sc'.

(** After a loop over the schools: the counters are natural numbers that
    add up to [n]. *)
Definition counts_up_to (n : Z) (sc : SchoolsConnection.t) : Prop :=
  counted sc = n
  /\ 0 <= SchoolsConnection.withoutConnection sc
  /\ 0 <= SchoolsConnection.atLeastOneBellowAvg sc
  /\ 0 <= SchoolsConnection.allEqualOrAboveAvg sc.



(** ** More sample data *)

Module Fixtures.
(** A file storage that keeps the names of the files it holds; the URL of
    a file is its name behind a fixed prefix, and deleting a file that is
    not there fails. *)
Definition blobStorage : storage.t (list string) :=
  storage.mk
    (fun file held => (Ok ("https://files/" ++ file)%string, held ++ [file]))
    (fun url held =>
       if existsb (fun file => String.eqb url ("https://files/" ++ file)%string) held
       then (Ok tt,
             List.filter (fun file => negb (String.eqb url ("https://files/" ++ file)%string))
                         held)
       else (Err (DatabaseError "blob not found"), held))
    (fun url => (url ++ "?sig=1")%string).

(** Attachment 5 of [Sample.db] with its file, linked to contract 1. *)
Definition files : Files (list string) :=
  mkFiles (set_contract_attachments [(1, 5)] Sample.db)
          (fun _ => "https://files/lower_20.pdf") 6 ["lower_20.pdf"] (fun _ => false).

(** The same, when the store refuses to detach. *)
Definition files_refusing_detach : Files (list string) :=
  mkFiles (set_contract_attachments [(1, 5)] Sample.db)
          (fun _ => "https://files/lower_20.pdf") 6 ["lower_20.pdf"]
          (fun op => match op with AttachmentDetach => true | _ => false end).

(** The metrics table with its columns. *)
Definition metricRows : list Metric.t :=
  [Metric.mk 1 "Uptime" "%"; Metric.mk 2 "Latency" "ms"].

(** Contract 3 of the samples with its attachments. *)
Definition loadedInLta : LoadedContract.t :=
  LoadedContract.mk Sample.contractInLta (Some [Attachment.mk 5 "https://files/lower_20.pdf"]).

(** Contract 1 of the samples, which has no LTA, with a linked school. *)
Definition loadedLoose : LoadedContract.t :=
  LoadedContract.mk (preload_contract Sample.db Sample.contract1) None.

Definition measuresBySchool : gmap string (list MeasureAvg.t) :=
  {[ "School A" := [MeasureAvg.mk 1 12%Q] ]}.

End Fixtures.


(** * Properties *)

(** ** Lists and lookups *)

Lemma filter_none {A} (P : A -> Prop) `{forall x, Decision (P x)} (l : list A) :
  (forall x, x ∈ l -> ~ P x) -> filter P l = [].
Proof.
  induction l as [|a l IH]; intros Hl; [reflexivity|].
  rewrite filter_cons_False by (apply Hl; left).
  apply IH. intros x Hx. apply Hl. by right.
Qed.

Lemma find_some_elem {A} (p : A -> bool) (l : list A) (x : A) :
  List.find p l = Some x -> x ∈ l /\ p x = true.
Proof.
  intros H. apply find_some in H as [Hin Hp]. split; [by apply list_elem_of_In|done].
Qed.

Lemma find_fmap_update {A} (p : A -> bool) (f : A -> A) (l : list A) (x : A) :
  (forall y, p (f y) = p y) ->
  List.find p l = Some x -> List.find p (f <$> l) = Some (f x).
Proof.
  intros Hp. induction l as [|a l IH]; simpl; [done|].
  rewrite Hp. destruct (p a); [by intros [= ->]|done].
Qed.

Lemma available_cons s op ops :
  available s (op :: ops) -> outage s op = false /\ available s ops.
Proof. intros H. by apply Forall_cons in H. Qed.

(** ** createContract *)

(** A failed creation leaves the committed tables as they were, closes the
    transaction, and raises either the "Draft not found" exception (only
    when the draft is indeed missing) or the dependency failure. *)
Lemma createContract_failure data s e s' :
  createContract data s = (Err e, s') ->
  s' = rolled_back s /\
  ((e = NotFoundException "Draft not found" 404 "NOT_FOUND"
    /\ draft_missing data (committed s))
   \/ e = FailedDependencyException "Some dependency failed while creating contract"
            424 "FAILED_DEPENDENCY").
Proof.
  run_workflow; intros H; outcome H; unfold draft_missing; auto.
Qed.

(** A reference to a missing attachment, school or metric makes the
    creation fail with the dependency failure. *)
Lemma createContract_invalid_reference data s :
  references_ok data (committed s) = false ->
  createContract data s
  = (Err (FailedDependencyException "Some dependency failed while creating contract"
            424 "FAILED_DEPENDENCY"), rolled_back s).
Proof.
  unfold references_ok.
  run_workflow; intros H; try reflexivity; discriminate.
Qed.

(** When the steps before the lookup go through and the draft is missing,
    the [NotFoundException] reaches the caller as it was thrown. *)
Lemma createContract_draft_not_found data s :
  available s [ContractCreate; AttachmentsAttach; SchoolsAttach;
               ExpectedMetricsCreate; DraftFindBy] ->
  references_ok data (committed s) = true ->
  draft_missing data (committed s) ->
  createContract data s
  = (Err (NotFoundException "Draft not found" 404 "NOT_FOUND"), rolled_back s).
Proof.
  intros Hav Href [Htruthy Hfind].
  apply available_cons in Hav as [H1 Hav]. apply available_cons in Hav as [H2 Hav].
  apply available_cons in Hav as [H3 Hav]. apply available_cons in Hav as [H4 Hav].
  apply available_cons in Hav as [H5 _].
  unfold references_ok in Href.
  apply andb_true_iff in Href as [Href Hmetrics].
  apply andb_true_iff in Href as [Hattachments Hschools].
  unfold_workflow. simpl.
  rewrite H1. simpl. rewrite H2, Hattachments. simpl. rewrite H3, Hschools. simpl.
  rewrite H4, Hmetrics. simpl. rewrite Htruthy. simpl. rewrite H5. simpl.
  by rewrite Hfind.
Qed.

(** C1: whatever makes [createContract] fail, the committed tables are what
    they were before the call (no Contract, ExpectedMetric or association
    row persists) and the caller receives the dependency failure, except
    that a missing draft reaches the caller as the [NotFoundException]
    "Draft not found" that was thrown; an invalid school, metric or
    attachment reference does make the call fail. *)
Theorem createContract_all_or_nothing (data : ContractCreation.t) (s : Storage) :
  (forall e s',
     createContract data s = (Err e, s') ->
     committed s' = committed s /\ pending s' = None /\
     ((e = NotFoundException "Draft not found" 404 "NOT_FOUND"
       /\ draft_missing data (committed s))
      \/ e = FailedDependencyException "Some dependency failed while creating contract"
               424 "FAILED_DEPENDENCY"))
  /\ (references_ok data (committed s) = false ->
      createContract data s
      = (Err (FailedDependencyException "Some dependency failed while creating contract"
                424 "FAILED_DEPENDENCY"), rolled_back s))
  /\ (available s [ContractCreate; AttachmentsAttach; SchoolsAttach;
                   ExpectedMetricsCreate; DraftFindBy] ->
      references_ok data (committed s) = true ->
      draft_missing data (committed s) ->
      createContract data s
      = (Err (NotFoundException "Draft not found" 404 "NOT_FOUND"), rolled_back s)).
Proof.
  split; [|split].
  - intros e s' H. apply createContract_failure in H as [-> H]. by repeat split.
  - apply createContract_invalid_reference.
  - apply createContract_draft_not_found.
Qed.

(** The rollback scenario of the functional tests: an unknown school. *)
Example createContract_invalid_school :
  createContract Sample.invalidSchool Sample.storage
  = (Err (FailedDependencyException "Some dependency failed while creating contract"
            424 "FAILED_DEPENDENCY"), Sample.storage).
Proof. reflexivity. Qed.

(** The scenario of the functional tests with an unknown draft. *)
Example createContract_unknown_draft :
  createContract Sample.unknownDraft Sample.storage
  = (Err (NotFoundException "Draft not found" 404 "NOT_FOUND"), Sample.storage).
Proof. reflexivity. Qed.

(** C2: after a successful [createContract] whose payload names an existing
    draft, no draft with that key is left, and the transitions of the new
    contract are exactly one row, [Draft -> Sent], whose payload holds the
    key of the draft and its creation timestamp. *)
Theorem createContract_consumes_draft (data : ContractCreation.t) (s : Storage)
    (contract : Contract.t) (s' : Storage) (d : Z) (draft : Draft.t) :
  Db_keys_ok (committed s) ->
  ContractCreation.draftId data = Some d ->
  List.find (fun x => Draft.id x =? d) (drafts (committed s)) = Some draft ->
  createContract data s = (Ok contract, s') ->
  (forall x, x ∈ drafts (committed s') -> Draft.id x <> d) /\
  filter (fun t => StatusTransition.contractId t = Contract.id contract)
         (status_transitions (committed s'))
  = [StatusTransition.mk (ContractCreation.createdBy data) (Contract.id contract)
       ContractStatus.Draft ContractStatus.Sent
       (Some (StatusTransition.mkPayload d (Draft.createdAt draft)))].
Proof.
  intros (Hseq & Hfk & Hpos) Hd Hfind.
  pose proof (find_some_elem _ _ _ Hfind) as [Hin Hid]. apply Z.eqb_eq in Hid.
  assert (truthy (ContractCreation.draftId data) = true) as Ht.
  { rewrite Hd. simpl. specialize (Hpos _ Hin). apply negb_true_iff, Z.eqb_neq. lia. }
  unfold_workflow. rewrite Ht, Hd. simpl.
  repeat run_step; intros H; outcome H; simplify_eq.
  split.
  - intros x Hx. apply list_elem_of_In, filter_In in Hx as [_ Hx].
    apply negb_true_iff, Z.eqb_neq in Hx. congruence.
  - rewrite filter_app, filter_none.
    + by rewrite filter_cons_True by done.
    + intros t Ht' Heq. simpl in Heq. destruct (Hfk _ Ht') as (c & Hc & Hct).
      specialize (Hseq _ Hc). lia.
Qed.

Lemma Sample_db_keys_ok : Db_keys_ok Sample.db.
Proof.
  split; [|split].
  - intros c Hc. apply list_elem_of_singleton in Hc. by subst.
  - intros t Ht. by apply elem_of_nil in Ht.
  - intros d Hd. apply list_elem_of_singleton in Hd. by subst.
Qed.

Lemma createContract_consumes_draft_witness :
  let s' := (createContract Sample.fromDraft Sample.storage).2 in
  createContract Sample.fromDraft Sample.storage = (Ok Sample.contract2, s')
  /\ (forall x, x ∈ drafts (committed s') -> Draft.id x <> 7)
  /\ filter (fun t => StatusTransition.contractId t = 2) (status_transitions (committed s'))
     = [StatusTransition.mk 9 2 ContractStatus.Draft ContractStatus.Sent
          (Some (StatusTransition.mkPayload 7 1650000000))].
Proof.
  split; [reflexivity|].
  apply (createContract_consumes_draft Sample.fromDraft Sample.storage
           Sample.contract2 _ 7 Sample.draft7).
  - apply Sample_db_keys_ok.
  - reflexivity.
  - reflexivity.
  - reflexivity.
Defined.

(** C3: the contract a successful [createContract] returns, which is the one
    row it adds to the contracts table, has status [Sent], whatever [status]
    the payload carries; it is never [Draft]. *)
Theorem createContract_status_Sent (data : ContractCreation.t) (s : Storage)
    (contract : Contract.t) (s' : Storage) :
  createContract data s = (Ok contract, s') ->
  Contract.status contract = ContractStatus.Sent /\
  Contract.status contract <> ContractStatus.Draft /\
  contracts (committed s') = contracts (committed s) ++ [contract].
Proof.
  run_workflow; intros H; outcome H; repeat split; done.
Qed.

(** The payload [Sample.fromDraft] asks for status [Draft] (0). *)
Lemma createContract_status_Sent_witness :
  ContractCreation.status Sample.fromDraft = Some ContractStatus.Draft
  /\ createContract Sample.fromDraft Sample.storage
     = (Ok Sample.contract2, (createContract Sample.fromDraft Sample.storage).2)
  /\ Contract.status Sample.contract2 = ContractStatus.Sent
  /\ Contract.status Sample.contract2 <> ContractStatus.Draft
  /\ contracts (committed (createContract Sample.fromDraft Sample.storage).2)
     = contracts (committed Sample.storage) ++ [Sample.contract2].
Proof.
  split; [reflexivity|]. split; [reflexivity|].
  apply (createContract_status_Sent Sample.fromDraft Sample.storage). reflexivity.
Defined.

(** ** changeStatus *)

(** C4: with an acting user and a store that accepts the statements, the
    transition fails with [NotFoundException] when no contract has the key;
    for a contract at status [N] it fails with [InvalidStatusException]
    unless [newStatus] is [N + 1] and a member of the status enum; and in
    that one case it succeeds, the stored contract has status [N + 1], and
    one transition row with the old status, the new status and the actor is
    appended.  In the two failing cases nothing is written. *)
Theorem changeStatus_forward_only (laterStatuses : list string)
    (contractId newStatus u : Z) (s : Storage) :
  available s [ContractFind; StatusTransitionCreate; ContractSave; TrxCommit] ->
  u <> 0 ->
  match List.find (fun c => Contract.id c =? contractId) (contracts (committed s)) with
  | None =>
      changeStatus laterStatuses contractId newStatus (Some u) s
      = (Err (NotFoundException "Contract not found" 404 "NOT_FOUND"), rolled_back s)
  | Some contract =>
      if (Contract.status contract + 1 =? newStatus)
         && ContractStatus.member laterStatuses newStatus
      then
        exists s',
          changeStatus laterStatuses contractId newStatus (Some u) s
          = (Ok (Some (Contract.set_status contract newStatus)), s')
          /\ List.find (fun c => Contract.id c =? contractId) (contracts (committed s'))
             = Some (Contract.set_status contract newStatus)
          /\ Contract.status (Contract.set_status contract newStatus)
             = Contract.status contract + 1
          /\ status_transitions (committed s')
             = status_transitions (committed s)
               ++ [StatusTransition.mk u (Contract.id contract) (Contract.status contract)
                     newStatus None]
      else
        changeStatus laterStatuses contractId newStatus (Some u) s
        = (Err (InvalidStatusException "Invalid status" 400 "INVALID_STATUS"),
           rolled_back s)
  end.
Proof.
  intros Hav Hu.
  apply available_cons in Hav as [H1 Hav]. apply available_cons in Hav as [H2 Hav].
  apply available_cons in Hav as [H3 Hav]. apply available_cons in Hav as [H4 _].
  assert (truthy (Some u) = true) as Ht by (by apply negb_true_iff, Z.eqb_neq).
  unfold_workflow. rewrite Ht. simpl. rewrite H1.
  destruct (List.find _ _) as [contract|] eqn:Hfind; simpl; [|done].
  destruct (Contract.status contract + 1 =? newStatus) eqn:Hnext; simpl; [|done].
  destruct (ContractStatus.member laterStatuses newStatus) eqn:Hmem; simpl; [|done].
  rewrite H2. simpl. rewrite H3. simpl. rewrite H4. simpl.
  eexists. split; [reflexivity|]. simpl.
  apply Z.eqb_eq in Hnext.
  repeat split; [|lia].
  pose proof (find_some_elem _ _ _ Hfind) as [_ Hid]. apply Z.eqb_eq in Hid.
  apply (find_fmap_update (fun c => Contract.id c =? contractId)
           (fun c => if Contract.id c =? Contract.id contract
                     then Contract.set_status contract newStatus else c)) in Hfind.
  - rewrite Hfind. by rewrite Z.eqb_refl.
  - intros y. destruct (Contract.id y =? Contract.id contract) eqn:E; [|done].
    apply Z.eqb_eq in E. simpl. by rewrite E.
Qed.

Lemma Sample_storage_available ops : available Sample.storage ops.
Proof. by apply Forall_forall. Qed.

(** Contract 1 is at [Sent] (1); user 9 moves it to 2. *)
Lemma changeStatus_forward_only_witness :
  exists s',
    changeStatus Sample.laterStatuses 1 2 (Some 9) Sample.storage
    = (Ok (Some (Contract.set_status Sample.contract1 2)), s')
    /\ List.find (fun c => Contract.id c =? 1) (contracts (committed s'))
       = Some (Contract.set_status Sample.contract1 2)
    /\ Contract.status (Contract.set_status Sample.contract1 2)
       = Contract.status Sample.contract1 + 1
    /\ status_transitions (committed s')
       = status_transitions (committed Sample.storage)
         ++ [StatusTransition.mk 9 1 1 2 None].
Proof.
  apply (changeStatus_forward_only Sample.laterStatuses 1 2 9 Sample.storage).
  - apply Sample_storage_available.
  - lia.
Defined.

(** No re-apply, no skipping, no way back, nothing past the last status,
    and no transition of a contract that does not exist. *)
Example changeStatus_rejections :
  let invalid := Err (InvalidStatusException "Invalid status" 400 "INVALID_STATUS") in
  changeStatus Sample.laterStatuses 1 1 (Some 9) Sample.storage = (invalid, Sample.storage)
  /\ changeStatus Sample.laterStatuses 1 3 (Some 9) Sample.storage = (invalid, Sample.storage)
  /\ changeStatus Sample.laterStatuses 1 0 (Some 9) Sample.storage = (invalid, Sample.storage)
  /\ changeStatus [] 1 2 (Some 9) Sample.storage = (invalid, Sample.storage)
  /\ changeStatus Sample.laterStatuses 42 2 (Some 9) Sample.storage
     = (Err (NotFoundException "Contract not found" 404 "NOT_FOUND"), Sample.storage).
Proof. repeat split. Qed.

(** Whatever [changeStatus] raises, the transaction is rolled back, and the
    exception is the one that was thrown inside the [try] block: the
    condition [if (error)] of the handler holds for every exception, so the
    [FailedDependencyException] after it is never raised. *)
Lemma changeStatus_rethrows laterStatuses contractId newStatus userId s e s' :
  changeStatus laterStatuses contractId newStatus userId s = (Err e, s') ->
  s' = rolled_back s /\
  forall message status code, e <> FailedDependencyException message status code.
Proof.
  unfold_workflow. destruct (truthy userId); simpl; [|done].
  repeat run_step.
  all: repeat match goal with
       | |- context [if ?b then _ else _] => destruct b eqn:?; simpl
       end.
  all: repeat run_step.
  all: intros H; outcome H; split; done.
Qed.

(** C5, on the code: user 9 moves contract 1 from [Sent] to the next status
    while the store refuses to insert the transition row.  The writes are
    rolled back, but the caller receives the error of the store, not the
    dependency failure. *)
Theorem changeStatus_storage_error_rethrown :
  changeStatus Sample.laterStatuses 1 2 (Some 9) Sample.storage_refusing_transitions
  = (Err (DatabaseError "statement failed"),
     rolled_back Sample.storage_refusing_transitions)
  /\ error_status (DatabaseError "statement failed") <> Some 424.
Proof. split; [reflexivity|discriminate]. Qed.

(** C6: without an acting user, [changeStatus] returns [undefined] and
    leaves the store as it is, whatever the contract key and the status. *)
Theorem changeStatus_without_actor (laterStatuses : list string)
    (contractId newStatus : Z) (s : Storage) :
  changeStatus laterStatuses contractId newStatus None s = (Ok None, s).
Proof. reflexivity. Qed.

(** ** evaluateMeasures *)

Lemma averages_of_cons sm rest :
  averages_of (sm :: rest)
  = <[MeasureAvg.metricId sm := MeasureAvg.avg sm]> (averages_of rest).
Proof. reflexivity. Qed.

(** The row that [findIndex] and the array access find for a metric is the
    entry of the map of averages. *)
Lemma at_index_findIndex rows m :
  averages_of rows !! m
  = MeasureAvg.avg <$> at_index rows (findIndex (fun sm => MeasureAvg.metricId sm =? m) rows).
Proof.
  induction rows as [|sm rest IH]; [done|].
  rewrite averages_of_cons. simpl.
  destruct (MeasureAvg.metricId sm =? m) eqn:E.
  - apply Z.eqb_eq in E. subst. by rewrite lookup_insert_eq.
  - apply Z.eqb_neq in E. rewrite lookup_insert_ne by done. rewrite IH.
    unfold at_index.
    destruct (findIndex _ rest <? 0) eqn:Hi; [done|].
    apply Z.ltb_ge in Hi.
    destruct (_ + 1 <? 0) eqn:Hj; [lia|].
    replace (Z.to_nat (findIndex (fun sm0 => MeasureAvg.metricId sm0 =? m) rest + 1))
      with (S (Z.to_nat (findIndex (fun sm0 => MeasureAvg.metricId sm0 =? m) rest))) by lia.
    done.
Qed.

Lemma loop_condition rows em :
  negb (bool_decide (is_Some (at_index rows
          (findIndex (fun sm => MeasureAvg.metricId sm =? ExpectedMetric.metricId em) rows))))
  || avg_lt (at_index rows
          (findIndex (fun sm => MeasureAvg.metricId sm =? ExpectedMetric.metricId em) rows))
        (ExpectedMetric.value em)
  = below_target (averages_of rows) em.
Proof.
  unfold below_target. rewrite at_index_findIndex.
  by destruct (at_index rows _).
Qed.

Lemma evaluateMeasures_loop_classifies rows expected sc :
  evaluateMeasures_loop rows expected sc
  = tally (classify_expected (averages_of rows) expected) sc.
Proof.
  induction expected as [|em rest IH]; [done|].
  simpl. rewrite loop_condition.
  by destruct (below_target (averages_of rows) em).
Qed.

Lemma averages_of_empty rows : map_to_list (averages_of rows) = [] <-> rows = [].
Proof.
  split.
  - intros H. apply map_to_list_empty_iff in H.
    destruct rows as [|sm rest]; [done|].
    rewrite averages_of_cons in H. by apply insert_non_empty in H.
  - by intros ->.
Qed.

Lemma classify_expected_first_failing averages pre em post :
  Forall (fun x => below_target averages x = false) pre ->
  below_target averages em = true ->
  classify_expected averages (pre ++ em :: post) = AtLeastOneBelowAverage.
Proof.
  induction 1 as [|x pre Hx _ IH]; intros Hem; simpl.
  - by rewrite Hem.
  - rewrite Hx. by apply IH.
Qed.

Lemma classify_expected_none_failing averages expected :
  Forall (fun x => below_target averages x = false) expected ->
  classify_expected averages expected = AllAtOrAboveAverage.
Proof.
  induction 1 as [|x l Hx _ IH]; simpl; [done|]. by rewrite Hx.
Qed.

(** C7: on an array of measured averages, [evaluateMeasures] adds one to the
    counter that the classification of the design names.  Without any
    average that is [withoutConnection]; otherwise the first expected
    metric, in the given order, that has no average or an average strictly
    below its target makes it [atLeastOneBellowAvg], whatever follows; and
    when no expected metric fails, in particular when there is none, it is
    [allEqualOrAboveAvg]. *)
Theorem evaluateMeasures_classifies (rows : list MeasureAvg.t)
    (expected : list ExpectedMetric.t) (sc : SchoolsConnection.t) :
  evaluateMeasures (MArray rows) expected sc
  = Ok (tally (classify (averages_of rows) expected) sc)
  /\ (rows = [] ->
      evaluateMeasures (MArray rows) expected sc = Ok (incr_withoutConnection sc))
  /\ (rows <> [] ->
      forall pre em post,
        expected = pre ++ em :: post ->
        Forall (fun x => below_target (averages_of rows) x = false) pre ->
        below_target (averages_of rows) em = true ->
        evaluateMeasures (MArray rows) expected sc = Ok (incr_atLeastOneBellowAvg sc))
  /\ (rows <> [] ->
      Forall (fun x => below_target (averages_of rows) x = false) expected ->
      evaluateMeasures (MArray rows) expected sc = Ok (incr_allEqualOrAboveAvg sc))
  /\ (rows <> [] ->
      evaluateMeasures (MArray rows) [] sc = Ok (incr_allEqualOrAboveAvg sc)).
Proof.
  assert (forall ems, evaluateMeasures (MArray rows) ems sc
                 = Ok (tally (classify (averages_of rows) ems) sc)) as Href.
  { intros ems. unfold evaluateMeasures, classify.
    destruct rows as [|sm rest]; [done|].
    destruct (map_to_list _) eqn:E; [by apply averages_of_empty in E|].
    simpl length. rewrite (proj2 (Z.eqb_neq _ 0)) by lia.
    by rewrite evaluateMeasures_loop_classifies. }
  assert (forall ems, rows <> [] ->
            classify (averages_of rows) ems = classify_expected (averages_of rows) ems) as Hne.
  { intros ems Hrows. unfold classify.
    destruct (map_to_list _) eqn:E; [by apply averages_of_empty in E|done]. }
  split; [apply Href|]. split; [by intros ->|].
  split; [|split].
  - intros Hrows pre em post -> Hpre Hem.
    by rewrite Href, Hne, classify_expected_first_failing.
  - intros Hrows Hall. by rewrite Href, Hne, classify_expected_none_failing.
  - intros Hrows. by rewrite Href, Hne.
Qed.

(** The two examples of the design: expected [(m1, 10), (m2, 5)] against
    the averages [{m1: 12}], and no expected metric against [{m1: 1}]. *)
Example evaluateMeasures_missing_average_fails :
  evaluateMeasures (MArray [MeasureAvg.mk 1 12%Q])
    [ExpectedMetric.mk 1 1 10%Q; ExpectedMetric.mk 1 2 5%Q] (SchoolsConnection.mk 0 0 0)
  = Ok (SchoolsConnection.mk 0 1 0)
  /\ evaluateMeasures (MArray [MeasureAvg.mk 1 1%Q]) [] (SchoolsConnection.mk 0 0 0)
     = Ok (SchoolsConnection.mk 0 0 1).
Proof. split; reflexivity. Qed.

(** The variant in src/unnamed/part_001 has no test for a missing average:
    there the first example counts the school as [allEqualOrAboveAvg]. *)
Example Part001_missing_average_passes :
  Part001.evaluateMeasures (MArray [MeasureAvg.mk 1 12%Q])
    [ExpectedMetric.mk 1 1 10%Q; ExpectedMetric.mk 1 2 5%Q] (SchoolsConnection.mk 0 0 0)
  = Ok (SchoolsConnection.mk 0 0 1).
Proof. reflexivity. Qed.

(** ** queryBuilder *)

Lemma isp_named_spec db ispId name :
  isp_named db ispId name = true
  <-> exists i, i ∈ isps db /\ Some (Isp.id i) = ispId /\ Isp.name i = name.
Proof.
  unfold isp_named. rewrite existsb_exists. split.
  - intros (i & Hin & H). apply andb_true_iff in H as [H1 H2].
    exists i. split; [by apply list_elem_of_In|].
    split; [by apply bool_decide_eq_true in H1|by apply String.eqb_eq].
  - intros (i & Hin & H1 & H2). exists i. split; [by apply list_elem_of_In|].
    apply andb_true_iff. split; [by apply bool_decide_eq_true|by apply String.eqb_eq].
Qed.

Lemma isps_contain_spec db ltaId name :
  isps_contain db ltaId name = true
  <-> exists i, i ∈ isps db /\ (ltaId, Isp.id i) ∈ lta_isps db /\ Isp.name i = name.
Proof.
  unfold isps_contain. rewrite existsb_exists. split.
  - intros (i & Hin & H). apply andb_true_iff in H as [H1 H2].
    exists i. split; [by apply list_elem_of_In|].
    split; [by apply bool_decide_eq_true in H1|by apply String.eqb_eq].
  - intros (i & Hin & H1 & H2). exists i. split; [by apply list_elem_of_In|].
    apply andb_true_iff. split; [by apply bool_decide_eq_true|by apply String.eqb_eq].
Qed.

(** C8: for a user with the administrative role the three queries select
    every row.  For any other user a contract, a draft or an LTA is selected
    exactly when it satisfies all the restrictions that apply: the country
    of the user; for a user with the government role, [governmentBehalf] on
    contracts and drafts; for a user with the isp role, a linked ISP named
    like the user on contracts and drafts, and an ISP named like the user in
    the linked set of an LTA. *)
Theorem queryBuilder_scope (roles : roles.t) (user : User.t) (db : Db) :
  let q := queryBuilder roles user in
  (checkUserRole user [roles.gigaAdmin roles] = true ->
     (forall c, visible_contract db (Queries.query q) c = true)
     /\ (forall d, visible_draft db (Queries.draftQuery q) d = true)
     /\ (forall l, visible_lta db (Queries.ltaQuery q) l = true))
  /\ (checkUserRole user [roles.gigaAdmin roles] = false ->
     (forall c, visible_contract db (Queries.query q) c = true
        <-> Contract.countryId c = User.countryId user
            /\ (checkUserRole user [roles.government roles] = true ->
                Contract.governmentBehalf c = true)
            /\ (checkUserRole user [roles.isp roles] = true ->
                isp_named db (Some (Contract.ispId c)) (User.name user) = true))
     /\ (forall d, visible_draft db (Queries.draftQuery q) d = true
        <-> Draft.countryId d = Some (User.countryId user)
            /\ (checkUserRole user [roles.government roles] = true ->
                Draft.governmentBehalf d = true)
            /\ (checkUserRole user [roles.isp roles] = true ->
                isp_named db (Draft.ispId d) (User.name user) = true))
     /\ (forall l, visible_lta db (Queries.ltaQuery q) l = true
        <-> Lta.countryId l = User.countryId user
            /\ (checkUserRole user [roles.isp roles] = true ->
                isps_contain db (Lta.id l) (User.name user) = true))).
Proof.
  unfold queryBuilder. simpl. split.
  - intros ->. simpl. done.
  - intros ->. simpl.
    destruct (checkUserRole user [roles.government roles]) eqn:Hgov;
    destruct (checkUserRole user [roles.isp roles]) eqn:Hisp; simpl.
    all: unfold visible_contract, visible_draft, visible_lta; simpl.
    all: repeat split; intros; bool_facts; auto; try done.
    all: rewrite ?andb_true_r in *; bool_facts; auto.
Qed.

(** The queries built for the ISP user "Vivo" of country 1. *)
Example queryBuilder_isp_user :
  queryBuilder Sample.roleNames Sample.ispUser
  = Queries.mk [WhereCountryId 1; WhereHasIsp "Vivo"]
               [WhereCountryId 1; WhereHasIsp "Vivo"]
               [LtaWhereCountryId 1; LtaWhereHasIsps "Vivo"]
  /\ queryBuilder Sample.roleNames Sample.admin = Queries.mk [] [] [].
Proof. split; reflexivity. Qed.

(** ** contractListDTO *)

Lemma formatLtaList_lookup_from (m : gmap string (list ContractList.t)) ltas name :
  foldl (fun aggregate current => <[Lta.name current := []]> aggregate) m ltas !! name
  = if bool_decide (name ∈ Lta.name <$> ltas) then Some [] else m !! name.
Proof.
  revert m. induction ltas as [|l ltas IH]; intros m.
  - case_bool_decide as H; [by apply elem_of_nil in H|done].
  - change (foldl (fun aggregate current => <[Lta.name current := []]> aggregate)
              (<[Lta.name l := []]> m) ltas !! name
            = if bool_decide (name ∈ Lta.name l :: (Lta.name <$> ltas))
              then Some [] else m !! name).
    rewrite IH.
    destruct (decide (name ∈ Lta.name <$> ltas)) as [Hin|Hin].
    + rewrite !bool_decide_eq_true_2; [done| |done]. by right.
    + rewrite (bool_decide_eq_false_2 _ Hin).
      destruct (decide (Lta.name l = name)) as [<-|Hne].
      * rewrite lookup_insert_eq, bool_decide_eq_true_2; [done|]. by left.
      * rewrite lookup_insert_ne by done. rewrite bool_decide_eq_false_2; [done|].
        intros [?|?]%elem_of_cons; congruence.
Qed.

(** [formatLtaList] seeds an empty bucket under the name of every LTA it
    is given, and nothing else. *)
Lemma formatLtaList_lookup ltas name :
  formatLtaList ltas !! name
  = if bool_decide (name ∈ Lta.name <$> ltas) then Some [] else None.
Proof. unfold formatLtaList. by rewrite formatLtaList_lookup_from, lookup_empty. Qed.

(** What a loop of the list view does to the two accumulators: the entries
    of the rows without an LTA go to the end of the flat list, the entries
    of the rows assigned to an LTA go to the end of the bucket of its name
    when there is one, and no bucket appears or disappears. *)
Lemma for_each_placing {X} (ltaId_of : X -> option Z) (lta_of : X -> option Lta.t)
    (entry_of : X -> Result ContractList.t) xs acc acc' :
  for_each (placing ltaId_of lta_of entry_of) xs acc = Ok acc' ->
  ContractListDTO.contracts acc'
  = ContractListDTO.contracts acc
    ++ omap (built entry_of) (List.filter (fun x => negb (truthy (ltaId_of x))) xs)
  /\ (forall name,
        ContractListDTO.ltas acc' !! name
        = (fun bucket =>
             bucket ++ omap (built entry_of)
               (List.filter (fun x => assigned_to name (ltaId_of x) (lta_of x)) xs))
          <$> ContractListDTO.ltas acc !! name)
  /\ Forall (fun x => is_Some (built entry_of x)) xs.
Proof.
  revert acc. induction xs as [|x xs IH]; intros acc; simpl.
  - intros [= <-]. split; [by rewrite app_nil_r|]. split; [|done].
    intros name. destruct (_ !! name); simpl; [by rewrite app_nil_r|done].
  - unfold placing at 1, built, place, assigned_to.
    destruct (entry_of x) as [entry|] eqn:Hentry; [|done].
    destruct (truthy (ltaId_of x)) eqn:Hlta; simpl.
    + destruct (lta_of x) as [l|] eqn:Hl; [|done].
      intros H. apply IH in H as (Hc & Hb & Hall). simpl in *.
      split; [done|]. split; [|constructor; [by rewrite Hentry|done]].
      intros name. rewrite Hb. unfold push_if_bucket.
      destruct (decide (Lta.name l = name)) as [<-|Hne].
      * rewrite bool_decide_eq_true_2 by done. simpl. rewrite Hentry.
        destruct (ContractListDTO.ltas acc !! Lta.name l) as [bucket|] eqn:Hbucket.
        -- rewrite lookup_insert_eq. simpl. by rewrite <- app_assoc.
        -- by rewrite Hbucket.
      * rewrite bool_decide_eq_false_2 by congruence.
        destruct (ContractListDTO.ltas acc !! Lta.name l); [|done].
        by rewrite lookup_insert_ne.
    + intros H. apply IH in H as (Hc & Hb & Hall). simpl in *.
      split; [|split; [done|constructor; [by rewrite Hentry|done]]].
      rewrite Hc, Hentry. by rewrite <- app_assoc.
Qed.

Lemma contract_entry_row later gp pi sm c e :
  contract_entry later gp pi sm c = Some e ->
  ContractList.ltaId e = Contract.ltaId (ContractModel.row c)
  /\ ContractList.id e = Contract.id (ContractModel.row c)
  /\ ContractList.name e = Contract.name (ContractModel.row c).
Proof.
  unfold contract_entry, contractData.
  destruct (connection_of _ _); [|done].
  destruct (ContractModel.isp c); [|done].
  destruct (ContractModel.country c); [|done].
  by intros [= <-].
Qed.

(** C9, as the code has it: whenever [contractListDTO] returns, the result
    has a bucket under the name of every LTA it was given and under no
    other name; the bucket of a name holds, in order, the entries of the
    drafts and then of the contracts that are assigned to an LTA of that
    name, so a row assigned to an LTA that is not among the given ones is
    in no bucket; the flat list holds, in order, one entry for each draft
    and then for each contract that has no LTA, and no entry of a row that
    has one; and every contract has an entry. *)
Theorem contractListDTO_groups (laterStatuses : list string)
    (getPercentage : Z -> option Z -> Z) (parseInt : string -> Z)
    (data : list ContractModel.t) (drafts : list DraftModel.t) (ltasData : list Lta.t)
    (schoolsMeasures : gmap string Slot) (r : ContractListDTO.t) :
  contractListDTO laterStatuses getPercentage parseInt data drafts ltasData schoolsMeasures
  = Ok r ->
  (forall l, l ∈ ltasData -> is_Some (ContractListDTO.ltas r !! Lta.name l))
  /\ (forall name,
        ContractListDTO.ltas r !! name
        = if bool_decide (name ∈ Lta.name <$> ltasData)
          then Some ((draftData <$> List.filter (draft_assigned_to name) drafts)
                     ++ omap (contract_entry laterStatuses getPercentage parseInt schoolsMeasures)
                          (List.filter (contract_assigned_to name) data))
          else None)
  /\ ContractListDTO.contracts r
     = (draftData <$> List.filter draft_unassigned drafts)
       ++ omap (contract_entry laterStatuses getPercentage parseInt schoolsMeasures)
            (List.filter contract_unassigned data)
  /\ (forall c, c ∈ data ->
        is_Some (contract_entry laterStatuses getPercentage parseInt schoolsMeasures c))
  /\ (forall e, e ∈ ContractListDTO.contracts r -> truthy (ContractList.ltaId e) = false).
Proof.
  unfold contractListDTO.
  destruct (for_each draft_step drafts _) as [acc|] eqn:Hdrafts; [|done].
  intros Hdata.
  change (for_each
            (placing (fun d => Draft.ltaId (DraftModel.row d)) DraftModel.lta
                     (fun d => Ok (draftData d)))
            drafts (ContractListDTO.mk (formatLtaList ltasData) []) = Ok acc) in Hdrafts.
  change (for_each
            (placing (fun c => Contract.ltaId (ContractModel.row c)) ContractModel.lta
                     (contractData laterStatuses getPercentage parseInt schoolsMeasures))
            data acc = Ok r) in Hdata.
  apply for_each_placing in Hdrafts as (Hc1 & Hb1 & _).
  apply for_each_placing in Hdata as (Hc2 & Hb2 & Hall).
  assert (forall ds : list DraftModel.t,
            omap (built (fun d => Ok (draftData d))) ds = draftData <$> ds) as Homap.
  { induction ds as [|d ds IH]; [done|]. simpl. by f_equal. }
  rewrite Homap in Hc1.
  cbn [ContractListDTO.ltas ContractListDTO.contracts app] in Hc1, Hb1.
  assert (forall name,
            ContractListDTO.ltas r !! name
            = if bool_decide (name ∈ Lta.name <$> ltasData)
              then Some ((draftData <$> List.filter (draft_assigned_to name) drafts)
                         ++ omap (contract_entry laterStatuses getPercentage parseInt
                                    schoolsMeasures)
                              (List.filter (contract_assigned_to name) data))
              else None) as Hbuckets.
  { intros name. rewrite Hb2, Hb1, formatLtaList_lookup.
    case_bool_decide; [|done]. by rewrite Homap. }
  split; [|split; [done|split; [|split]]].
  - intros l Hl. rewrite Hbuckets, bool_decide_eq_true_2; [done|].
    apply list_elem_of_fmap. by exists l.
  - by rewrite Hc2, Hc1.
  - intros c Hc. by apply (proj1 (Forall_forall _ _) Hall).
  - intros e. rewrite Hc2, Hc1.
    intros [He|He]%elem_of_app.
    + apply list_elem_of_fmap in He as (d & -> & Hd).
      apply list_elem_of_In, filter_In in Hd as [_ Hd].
      by apply negb_true_iff in Hd.
    + apply list_elem_of_omap in He as (c & Hc & He).
      apply list_elem_of_In, filter_In in Hc as [_ Hc].
      apply contract_entry_row in He as (-> & _).
      by apply negb_true_iff in Hc.
Qed.

(** LTA 1 is given: its bucket receives the draft and the contract that are
    assigned to it, the flat list the draft and the contract without LTA. *)
Lemma contractListDTO_groups_witness :
  exists r e3 e1,
    contractListDTO Sample.laterStatuses Sample.getPercentage Sample.parseInt
      [Sample.contractInLta; Sample.contractLoose] [Sample.draftInLta; Sample.draftLoose]
      [Sample.lta1] Sample.nestedMeasures = Ok r
    /\ contract_entry Sample.laterStatuses Sample.getPercentage Sample.parseInt
         Sample.nestedMeasures Sample.contractInLta = Some e3
    /\ contract_entry Sample.laterStatuses Sample.getPercentage Sample.parseInt
         Sample.nestedMeasures Sample.contractLoose = Some e1
    /\ ContractListDTO.ltas r !! "LTA 1" = Some [draftData Sample.draftInLta; e3]
    /\ ContractListDTO.contracts r = [draftData Sample.draftLoose; e1].
Proof.
  eexists _, _, _.
  split; [reflexivity|]. split; [reflexivity|]. split; [reflexivity|].
  destruct (contractListDTO_groups Sample.laterStatuses Sample.getPercentage Sample.parseInt
              [Sample.contractInLta; Sample.contractLoose]
              [Sample.draftInLta; Sample.draftLoose]
              [Sample.lta1] Sample.nestedMeasures _ eq_refl) as (_ & Hbuckets & Hflat & _).
  split; [rewrite Hbuckets|rewrite Hflat]; reflexivity.
Defined.

(** C9, as it is written, fails: a draft assigned to LTA 1 while no LTA is
    given is appended to no bucket (and to no list). *)
Lemma contractListDTO_drops_hidden_lta :
  contractListDTO Sample.laterStatuses Sample.getPercentage Sample.parseInt
    [] [Sample.draftInLta] [] ∅ = Ok (ContractListDTO.mk ∅ [])
  /\ ~ assigned_rows_are_bucketed Sample.laterStatuses Sample.getPercentage Sample.parseInt
         [] [Sample.draftInLta] [] ∅.
Proof.
  split; [reflexivity|].
  intros H.
  destruct (H (ContractListDTO.mk ∅ []) eq_refl) as [Hd _].
  destruct (Hd Sample.draftInLta Sample.lta1) as (bucket & Hb & _).
  - by left.
  - done.
  - done.
  - vm_compute in Hb. discriminate.
Qed.

(** ** getContractList *)

Lemma for_each_Err {A S} (f : A -> S -> Result S) l s e :
  for_each f l s = Err e -> exists x s', x ∈ l /\ f x s' = Err e.
Proof.
  revert s. induction l as [|a l IH]; intros s; simpl; [done|].
  destruct (f a s) as [s1|e1] eqn:Hf.
  - intros H. apply IH in H as (x & s' & Hx & H). exists x, s'. split; [by right|done].
  - intros [= <-]. exists a, s. split; [by left|done].
Qed.


Lemma evaluateMeasures_Err arg expected sc e :
  evaluateMeasures arg expected sc = Err e -> is_TypeError e.
Proof.
  unfold evaluateMeasures. destruct arg as [| |rows]; [|done|].
  - intros [= <-]. by eexists.
  - by destruct (_ =? 0).
Qed.







Lemma fill_schools_keeps db key schools (m : gmap string (list MeasureAvg.t)) :
  is_Some (m !! key) ->
  is_Some (foldl (fun schoolsMeasures school =>
                    <[School.name school := Measure_avg_by_metric db (School.id school)]>
                      schoolsMeasures) m schools !! key).
Proof.
  revert m. induction schools as [|school schools IH]; intros m Hm; simpl; [done|].
  apply IH. destruct (decide (School.name school = key)) as [<-|Hne].
  - by rewrite lookup_insert_eq.
  - by rewrite lookup_insert_ne.
Qed.

Lemma fill_schools_adds db school schools (m : gmap string (list MeasureAvg.t)) :
  school ∈ schools ->
  is_Some (foldl (fun schoolsMeasures school =>
                    <[School.name school := Measure_avg_by_metric db (School.id school)]>
                      schoolsMeasures) m schools !! School.name school).
Proof.
  revert m. induction schools as [|first schools IH]; intros m Hin; simpl.
  - by apply elem_of_nil in Hin.
  - apply elem_of_cons in Hin as [->|Hin]; [|by apply IH].
    apply fill_schools_keeps. by rewrite lookup_insert_eq.
Qed.


(** Under the name of a linked school the map of the service does hold an
    array: the lookup by school name alone, as [contractDeatilsDTO] and the
    part_001 variant of [contractListDTO] write it, finds it. *)
Lemma collect_schoolsMeasures_keyed_by_school db contracts c school :
  c ∈ contracts -> school ∈ ContractModel.schools c ->
  exists rows,
    measures_by_school (collect_schoolsMeasures db contracts) (School.name school)
    = MArray rows.
Proof.
  intros Hc Hs.
  assert (is_Some (collect_schoolsMeasures db contracts !! School.name school)) as [rows H].
  { revert Hc Hs.
    unfold collect_schoolsMeasures. generalize (∅ : gmap string (list MeasureAvg.t)).
    assert (forall cs (m : gmap string (list MeasureAvg.t)) key,
              is_Some (m !! key) ->
              is_Some (foldl
                (fun schoolsMeasures contract =>
                   if Z.of_nat (length (ContractModel.schools contract)) =? 0
                   then schoolsMeasures
                   else
                     foldl
                       (fun schoolsMeasures school =>
                          <[School.name school := Measure_avg_by_metric db (School.id school)]>
                            schoolsMeasures)
                       schoolsMeasures (ContractModel.schools contract))
                m cs !! key)) as Hkeep.
    { induction cs as [|c' cs IH]; intros m key Hm; simpl; [done|].
      apply IH. destruct (_ =? 0); [done|]. by apply fill_schools_keeps. }
    induction contracts as [|c' contracts IH]; intros m Hc Hs; simpl.
    - by apply elem_of_nil in Hc.
    - apply elem_of_cons in Hc as [<-|Hc]; [|by apply IH].
      apply Hkeep.
      destruct (ContractModel.schools c) as [|first rest] eqn:Hschools;
        [by apply elem_of_nil in Hs|].
      simpl length. rewrite (proj2 (Z.eqb_neq _ 0)) by lia.
      by apply fill_schools_adds. }
  exists rows. unfold measures_by_school. by rewrite H.
Qed.


(** C10, on the code: the administrator lists the contracts of a store that
    holds contract "Contract 1" with the linked school "School A".  The
    service files the averages of the school under "School A";
    [contractListDTO] reads the key "Contract 1" first, finds [undefined],
    and indexing it raises a [TypeError]. *)
Theorem getContractList_raises_TypeError :
  scoped_contracts Sample.roleNames Sample.admin Sample.db
  = [preload_contract Sample.db Sample.contract1]
  /\ ContractModel.schools (preload_contract Sample.db Sample.contract1) = [Sample.schoolA]
  /\ collect_schoolsMeasures Sample.db
       (scoped_contracts Sample.roleNames Sample.admin Sample.db)
     = {[ "School A" := [MeasureAvg.mk 1 12%Q] ]}
  /\ getContractList Sample.roleNames Sample.laterStatuses Sample.getPercentage
       Sample.parseInt Sample.admin Sample.storage
     = (Err (TypeError "Cannot read properties of undefined"), Sample.storage).
Proof. repeat split; vm_compute; reflexivity. Qed.


Lemma changeStatus_rethrows_witness :
  rolled_back Sample.storage_refusing_transitions
  = rolled_back Sample.storage_refusing_transitions
  /\ forall message status code,
       DatabaseError "statement failed" <> FailedDependencyException message status code.
Proof.
  apply (changeStatus_rethrows Sample.laterStatuses 1 2 (Some 9)
           Sample.storage_refusing_transitions).
  reflexivity.
Defined.

(** * Further properties *)

(** ** createContract: what a successful call writes *)

(** A successful [createContract] gives the contract the next key and the
    columns of the payload, appends one pivot row per attachment and per
    school and one ExpectedMetric row per expected metric, all under the
    new key, and leaves every other table as it was; without a [draftId]
    it writes no StatusTransition row and deletes no draft. *)
Theorem createContract_writes (data : ContractCreation.t) (s : Storage)
    (contract : Contract.t) (s' : Storage) :
  createContract data s = (Ok contract, s') ->
  let db := committed s in
  let db' := committed s' in
  contract
  = Contract.mk (contracts_id_seq db)
      (ContractCreation.name data) (ContractCreation.countryId data)
      (ContractCreation.governmentBehalf data) (ContractCreation.ltaId data)
      (ContractCreation.currencyId data) (ContractCreation.budget data)
      (ContractCreation.frequencyId data) (ContractCreation.startDate data)
      (ContractCreation.endDate data) (ContractCreation.ispId data)
      (ContractCreation.createdBy data) ContractStatus.Sent
  /\ contracts_id_seq db' = contracts_id_seq db + 1
  /\ contract_attachments db'
     = contract_attachments db
       ++ ((fun a => (Contract.id contract, ObjWithId.id a))
             <$> default [] (ContractCreation.attachments data))
  /\ contract_schools db'
     = contract_schools db
       ++ ((fun k => (Contract.id contract, ObjWithId.id k)) <$> ContractCreation.schools data)
  /\ expected_metrics db'
     = expected_metrics db
       ++ ((fun m => ExpectedMetric.mk (Contract.id contract) (MetricValue.metricId m)
                       (MetricValue.value m)) <$> ContractCreation.expectedMetrics data)
  /\ (truthy (ContractCreation.draftId data) = false ->
      drafts db' = drafts db /\ status_transitions db' = status_transitions db)
  /\ (ltas db' = ltas db /\ lta_isps db' = lta_isps db /\ isps db' = isps db
      /\ countries db' = countries db /\ schools db' = schools db
      /\ metrics db' = metrics db /\ attachments db' = attachments db
      /\ measures db' = measures db /\ payments db' = payments db).
Proof.
  run_workflow; intros H; outcome H.
  all: unfold destructObjArrayWithId; rewrite <- ?list_fmap_compose.
  all: repeat split; try done.
Qed.

Lemma createContract_writes_witness :
  createContract Sample.fromDraft Sample.storage
  = (Ok Sample.contract2, (createContract Sample.fromDraft Sample.storage).2)
  /\ contract_schools (committed (createContract Sample.fromDraft Sample.storage).2)
     = [(1, 1); (2, 1)]
  /\ List.length (expected_metrics (committed (createContract Sample.fromDraft Sample.storage).2))
     = 5%nat.
Proof.
  split; [reflexivity|].
  destruct (createContract_writes Sample.fromDraft Sample.storage Sample.contract2
              (createContract Sample.fromDraft Sample.storage).2 eq_refl)
    as (_ & _ & _ & Hschools & Hmetrics & _).
  split; [by rewrite Hschools|by rewrite Hmetrics].
Defined.

(** When the store accepts the statements, every reference of the payload
    exists and the draft it names (if any) exists, [createContract]
    returns a contract. *)
Theorem createContract_succeeds (data : ContractCreation.t) (s : Storage) :
  available s [ContractCreate; AttachmentsAttach; SchoolsAttach; ExpectedMetricsCreate;
               DraftFindBy; StatusTransitionCreate; DraftDelete; TrxCommit] ->
  references_ok data (committed s) = true ->
  (truthy (ContractCreation.draftId data) = true ->
   is_Some (List.find (fun d => Draft.id d =? default 0 (ContractCreation.draftId data))
                      (drafts (committed s)))) ->
  exists contract s', createContract data s = (Ok contract, s').
Proof.
  intros Hav Href Hdraft.
  repeat (apply available_cons in Hav as [? Hav]).
  unfold references_ok in Href.
  apply andb_true_iff in Href as [Href Hmetrics].
  apply andb_true_iff in Href as [Hattachments Hschools].
  run_workflow; try congruence; try by eauto.
  by destruct Hdraft.
Qed.

Lemma createContract_succeeds_witness :
  exists contract s', createContract Sample.fromDraft Sample.storage = (Ok contract, s').
Proof.
  apply (createContract_succeeds Sample.fromDraft Sample.storage).
  - apply Sample_storage_available.
  - reflexivity.
  - intros _. by eexists.
Defined.

(** ** The key invariant *)

Lemma fmap_update_id (k : Z) (contract : Contract.t) (cs : list Contract.t) c' :
  Contract.id contract = k ->
  c' ∈ (fun c => if Contract.id c =? k then contract else c) <$> cs ->
  exists c, c ∈ cs /\ Contract.id c = Contract.id c'.
Proof.
  intros Hk (c & -> & Hc)%list_elem_of_fmap. exists c. split; [done|].
  destruct (Contract.id c =? k) eqn:E; [|done].
  apply Z.eqb_eq in E. congruence.
Qed.

Lemma elem_of_fmap_update (k : Z) (contract : Contract.t) (cs : list Contract.t) c :
  Contract.id contract = k ->
  c ∈ cs ->
  exists c', c' ∈ (fun c => if Contract.id c =? k then contract else c) <$> cs
             /\ Contract.id c' = Contract.id c.
Proof.
  intros Hk Hc. eexists. split; [apply list_elem_of_fmap; by exists c|].
  destruct (Contract.id c =? k) eqn:E; [|done].
  apply Z.eqb_eq in E. simpl. congruence.
Qed.

(** [createContract] keeps the keys of the store well formed, whatever its
    outcome: contract keys stay below the next key, every transition still
    refers to a contract, draft keys stay positive. *)
Theorem createContract_keeps_keys (data : ContractCreation.t) (s : Storage)
    (r : Result Contract.t) (s' : Storage) :
  Db_keys_ok (committed s) ->
  createContract data s = (r, s') ->
  Db_keys_ok (committed s').
Proof.
  intros (Hseq & Hfk & Hpos).
  run_workflow; intros H; outcome H; try done.
  all: split; [|split]; simpl.
  all: try (intros c [Hc|Hc%list_elem_of_singleton]%elem_of_app;
            [specialize (Hseq _ Hc); lia|subst; simpl; lia]).
  all: try (intros d Hd%list_elem_of_In; apply filter_In in Hd as [Hd%list_elem_of_In _];
            by apply Hpos).
  all: try done.
  - intros t' [Ht|Ht%list_elem_of_singleton]%elem_of_app.
    + destruct (Hfk _ Ht) as (c & Hc & Hid). exists c. split; [|done].
      apply elem_of_app. by left.
    + subst. eexists. split; [apply elem_of_app; right; by left|done].
  - intros t' Ht. destruct (Hfk _ Ht) as (c & Hc & Hid). exists c. split; [|done].
    apply elem_of_app. by left.
Qed.

Lemma createContract_keeps_keys_witness :
  Db_keys_ok (committed (createContract Sample.fromDraft Sample.storage).2).
Proof.
  apply (createContract_keeps_keys Sample.fromDraft Sample.storage
           (createContract Sample.fromDraft Sample.storage).1).
  - apply Sample_db_keys_ok.
  - reflexivity.
Defined.

(** [changeStatus] keeps the keys of the store well formed, whatever its
    outcome. *)
Theorem changeStatus_keeps_keys (laterStatuses : list string)
    (contractId newStatus : Z) (userId : option Z) (s : Storage)
    (r : Result (option Contract.t)) (s' : Storage) :
  Db_keys_ok (committed s) ->
  changeStatus laterStatuses contractId newStatus userId s = (r, s') ->
  Db_keys_ok (committed s').
Proof.
  intros (Hseq & Hfk & Hpos).
  unfold_workflow. destruct (truthy userId); simpl; [|by intros [= <- <-]].
  repeat run_step.
  all: repeat match goal with
       | |- context [if ?b then _ else _] => destruct b eqn:?; simpl
       end.
  all: repeat run_step.
  all: intros H; outcome H; try done.
  match goal with H : List.find _ _ = Some ?c |- _ =>
    apply find_some_elem in H as [Hin Hid]; apply Z.eqb_eq in Hid end.
  split; [|split]; simpl; [| |done].
  - intros c' (c & Hc & <-)%fmap_update_id; [by apply Hseq|done].
  - intros t' [Ht|Ht%list_elem_of_singleton]%elem_of_app.
    + destruct (Hfk _ Ht) as (c & Hc & <-). by apply elem_of_fmap_update.
    + subst. simpl. by apply elem_of_fmap_update.
Qed.

Lemma changeStatus_keeps_keys_witness :
  Db_keys_ok
    (committed (changeStatus Sample.laterStatuses 1 2 (Some 9) Sample.storage).2).
Proof.
  apply (changeStatus_keeps_keys Sample.laterStatuses 1 2 (Some 9) Sample.storage
           (changeStatus Sample.laterStatuses 1 2 (Some 9) Sample.storage).1).
  - apply Sample_db_keys_ok.
  - reflexivity.
Defined.

(** ** changeStatus: frame, direction and composition *)





(** What a run of [changeStatus] that raises nothing tells, also when the
    store is unreliable: without a result there was no acting user; with a
    result, the contract was found at the status just below [newStatus],
    [newStatus] is a member of the enum, and the result is that contract at
    [newStatus]. *)
Lemma changeStatus_Ok laterStatuses contractId newStatus userId s result s' :
  changeStatus laterStatuses contractId newStatus userId s = (Ok result, s') ->
  match result with
  | None => truthy userId = false /\ s' = s
  | Some saved =>
      truthy userId = true
      /\ exists contract,
           List.find (fun c => Contract.id c =? contractId) (contracts (committed s))
           = Some contract
           /\ Contract.status contract + 1 = newStatus
           /\ ContractStatus.member laterStatuses newStatus = true
           /\ saved = Contract.set_status contract newStatus
           /\ List.find (fun c => Contract.id c =? contractId) (contracts (committed s'))
              = Some saved
           /\ outage s' = outage s
  end.
Proof.
  unfold_workflow. destruct (truthy userId) eqn:Hu; simpl; [|by intros [= <- <-]].
  destruct (outage s ContractFind); simpl; [done|].
  destruct (List.find _ _) as [contract|] eqn:Hfind; simpl; [|done].
  destruct (Contract.status contract + 1 =? newStatus) eqn:Hnext; simpl; [|done].
  destruct (ContractStatus.member laterStatuses newStatus) eqn:Hmem; simpl; [|done].
  destruct (outage s StatusTransitionCreate); simpl; [done|].
  destruct (outage s ContractSave); simpl; [done|].
  destruct (outage s TrxCommit); simpl; [done|].
  intros H; outcome H.
  split; [done|]. exists contract. apply Z.eqb_eq in Hnext.
  repeat split; try done.
  pose proof (find_some_elem _ _ _ Hfind) as [_ Hid]. apply Z.eqb_eq in Hid.
  apply (find_fmap_update (fun c => Contract.id c =? contractId)
           (fun c => if Contract.id c =? Contract.id contract
                     then Contract.set_status contract newStatus else c)) in Hfind.
  - rewrite Hfind. by rewrite Z.eqb_refl.
  - intros y. destruct (Contract.id y =? Contract.id contract) eqn:E; [|done].
    apply Z.eqb_eq in E. simpl. by rewrite E.
Qed.

(** [changeStatus] moves a contract forward only: it returns a saved
    contract only when the contract was stored at the status just below
    [newStatus] and [newStatus] is a member of the enum, whether or not the
    store accepts every statement. *)
Theorem changeStatus_only_forward (laterStatuses : list string)
    (contractId newStatus : Z) (userId : option Z) (s : Storage)
    (saved : Contract.t) (s' : Storage) :
  changeStatus laterStatuses contractId newStatus userId s = (Ok (Some saved), s') ->
  exists contract,
    List.find (fun c => Contract.id c =? contractId) (contracts (committed s)) = Some contract
    /\ Contract.status contract + 1 = newStatus
    /\ ContractStatus.member laterStatuses newStatus = true
    /\ saved = Contract.set_status contract newStatus.
Proof.
  intros H. apply changeStatus_Ok in H as (_ & contract & H1 & H2 & H3 & H4 & _).
  by exists contract.
Qed.

Lemma changeStatus_only_forward_witness :
  exists contract,
    List.find (fun c => Contract.id c =? 1) (contracts (committed Sample.storage))
    = Some contract
    /\ Contract.status contract + 1 = 2
    /\ ContractStatus.member Sample.laterStatuses 2 = true
    /\ Contract.set_status Sample.contract1 2 = Contract.set_status contract 2.
Proof.
  apply (changeStatus_only_forward Sample.laterStatuses 1 2 (Some 9) Sample.storage
           (Contract.set_status Sample.contract1 2)
           (changeStatus Sample.laterStatuses 1 2 (Some 9) Sample.storage).2).
  reflexivity.
Defined.

(** A transition that succeeded cannot be applied again: the same request
    on the resulting store fails with [InvalidStatusException] (when the
    store answers the lookup), and nothing is written. *)
Theorem changeStatus_not_twice (laterStatuses : list string)
    (contractId newStatus : Z) (userId : option Z) (s : Storage)
    (saved : Contract.t) (s' : Storage) :
  changeStatus laterStatuses contractId newStatus userId s = (Ok (Some saved), s') ->
  outage s ContractFind = false ->
  changeStatus laterStatuses contractId newStatus userId s'
  = (Err (InvalidStatusException "Invalid status" 400 "INVALID_STATUS"), rolled_back s').
Proof.
  intros H Hav.
  apply changeStatus_Ok in H as (Hu & contract & _ & _ & _ & -> & Hfind & Hout).
  unfold_workflow. rewrite Hu. simpl. rewrite Hout, Hav, Hfind. simpl.
  by rewrite (proj2 (Z.eqb_neq _ _)) by lia.
Qed.

Lemma changeStatus_not_twice_witness :
  let s' := (changeStatus Sample.laterStatuses 1 2 (Some 9) Sample.storage).2 in
  changeStatus Sample.laterStatuses 1 2 (Some 9) s'
  = (Err (InvalidStatusException "Invalid status" 400 "INVALID_STATUS"), rolled_back s').
Proof.
  apply (changeStatus_not_twice Sample.laterStatuses 1 2 (Some 9) Sample.storage
           (Contract.set_status Sample.contract1 2)).
  - reflexivity.
  - reflexivity.
Defined.

(** ** Counting schools *)

Lemma evaluateMeasures_loop_incr rows expected sc :
  evaluateMeasures_loop rows expected sc = incr_atLeastOneBellowAvg sc
  \/ evaluateMeasures_loop rows expected sc = incr_allEqualOrAboveAvg sc.
Proof.
  induction expected as [|em rest IH]; simpl; [by right|].
  destruct (_ || _); [by left|done].
Qed.

Lemma Part001_evaluateMeasures_loop_incr rows expected sc :
  Part001.evaluateMeasures_loop rows expected sc = incr_atLeastOneBellowAvg sc
  \/ Part001.evaluateMeasures_loop rows expected sc = incr_allEqualOrAboveAvg sc.
Proof.
  induction expected as [|em rest IH]; simpl; [by right|].
  destruct (avg_lt _ _); [by left|done].
Qed.

Lemma evaluateMeasures_one_more arg expected sc sc' :
  evaluateMeasures arg expected sc = Ok sc' -> one_more sc sc'.
Proof.
  unfold evaluateMeasures, one_more, counted.
  destruct arg as [| |rows]; [done| |].
  - intros [= <-]. simpl. lia.
  - destruct (_ =? 0); [intros [= <-]; simpl; lia|].
    intros [= <-].
    destruct (evaluateMeasures_loop_incr rows expected sc) as [-> | ->]; simpl; lia.
Qed.

Lemma Part001_evaluateMeasures_one_more arg expected sc sc' :
  Part001.evaluateMeasures arg expected sc = Ok sc' -> one_more sc sc'.
Proof.
  unfold Part001.evaluateMeasures, one_more, counted.
  destruct arg as [| |rows]; [done| |].
  - intros [= <-]. simpl. lia.
  - destruct (_ =? 0); [intros [= <-]; simpl; lia|].
    intros [= <-].
    destruct (Part001_evaluateMeasures_loop_incr rows expected sc) as [-> | ->]; simpl; lia.
Qed.

Lemma for_each_one_more {A} (f : A -> SchoolsConnection.t -> Result SchoolsConnection.t)
    (l : list A) sc sc' :
  (forall x a a', f x a = Ok a' -> one_more a a') ->
  for_each f l sc = Ok sc' ->
  counted sc' = counted sc + Z.of_nat (length l)
  /\ SchoolsConnection.withoutConnection sc <= SchoolsConnection.withoutConnection sc'
  /\ SchoolsConnection.atLeastOneBellowAvg sc <= SchoolsConnection.atLeastOneBellowAvg sc'
  /\ SchoolsConnection.allEqualOrAboveAvg sc <= SchoolsConnection.allEqualOrAboveAvg sc'.
Proof.
  intros Hf. revert sc. induction l as [|x l IH]; intros sc; simpl.
  - intros [= <-]. lia.
  - destruct (f x sc) as [a|] eqn:Hx; [|done].
    intros H. apply IH in H. apply Hf in Hx. unfold one_more in Hx. lia.
Qed.

Lemma loop_counts_up {A} (f : A -> SchoolsConnection.t -> Result SchoolsConnection.t)
    (l : list A) sc :
  (forall x a a', f x a = Ok a' -> one_more a a') ->
  (if negb (Z.of_nat (length l) =? 0)
   then for_each f l (SchoolsConnection.mk 0 0 0)
   else Ok (SchoolsConnection.mk 0 0 0)) = Ok sc ->
  counts_up_to (Z.of_nat (length l)) sc.
Proof.
  intros Hf. unfold counts_up_to. destruct (negb _) eqn:E.
  - intros H. apply (for_each_one_more _ _ _ _ Hf) in H. unfold counted in *. simpl in H. lia.
  - apply negb_false_iff, Z.eqb_eq in E. intros [= <-]. unfold counted. simpl. lia.
Qed.

(** In the list view, every school of a contract is counted in exactly one
    of the three counters: when the loop over the schools ends, the counters
    are natural numbers that add up to the number of schools. *)
Theorem connection_of_counts_schools (schoolsMeasures : gmap string Slot)
    (contract : ContractModel.t) (sc : SchoolsConnection.t) :
  connection_of schoolsMeasures contract = Ok sc ->
  counts_up_to (Z.of_nat (length (ContractModel.schools contract))) sc.
Proof.
  unfold connection_of. apply loop_counts_up.
  intros school a a'. destruct (measures_of _ _ _); [|done].
  apply evaluateMeasures_one_more.
Qed.

Lemma connection_of_counts_schools_witness :
  connection_of Sample.nestedMeasures Sample.contractInLta = Ok (SchoolsConnection.mk 0 0 1)
  /\ counts_up_to 1 (SchoolsConnection.mk 0 0 1).
Proof.
  split; [reflexivity|].
  apply (connection_of_counts_schools Sample.nestedMeasures Sample.contractInLta).
  reflexivity.
Defined.

(** ** The part_001 variant of evaluateMeasures *)

Lemma part001_loop_condition rows em :
  avg_lt (at_index rows
            (findIndex (fun sm => MeasureAvg.metricId sm =? ExpectedMetric.metricId em) rows))
         (ExpectedMetric.value em)
  = measured_below (averages_of rows) em.
Proof.
  unfold measured_below. rewrite at_index_findIndex.
  by destruct (at_index rows _).
Qed.

Lemma Part001_loop_classifies rows expected sc :
  Part001.evaluateMeasures_loop rows expected sc
  = tally (if existsb (measured_below (averages_of rows)) expected
           then AtLeastOneBelowAverage else AllAtOrAboveAverage) sc.
Proof.
  induction expected as [|em rest IH]; [done|].
  simpl. rewrite part001_loop_condition.
  by destruct (measured_below (averages_of rows) em).
Qed.

(** The variant of [evaluateMeasures] in part_001 counts a school without
    any average as [withoutConnection], a school with an expected metric
    whose measured average is strictly below the target as
    [atLeastOneBellowAvg], and any other school as [allEqualOrAboveAvg]: an
    expected metric the school has no average for never fails. *)
Theorem Part001_evaluateMeasures_classifies (rows : list MeasureAvg.t)
    (expected : list ExpectedMetric.t) (sc : SchoolsConnection.t) :
  Part001.evaluateMeasures (MArray rows) expected sc
  = Ok (tally (part001_classify (averages_of rows) expected) sc).
Proof.
  unfold Part001.evaluateMeasures, part001_classify.
  destruct rows as [|sm rest]; [done|].
  destruct (map_to_list _) eqn:E; [by apply averages_of_empty in E|].
  simpl length. rewrite (proj2 (Z.eqb_neq _ 0)) by lia.
  by rewrite Part001_loop_classifies.
Qed.

(** The two variants of [evaluateMeasures] agree on every school that has
    an average for each expected metric. *)
Theorem evaluateMeasures_variants_agree (rows : list MeasureAvg.t)
    (expected : list ExpectedMetric.t) (sc : SchoolsConnection.t) :
  Forall (fun em => is_Some (averages_of rows !! ExpectedMetric.metricId em)) expected ->
  Part001.evaluateMeasures (MArray rows) expected sc
  = evaluateMeasures (MArray rows) expected sc.
Proof.
  intros Hall. unfold Part001.evaluateMeasures, evaluateMeasures.
  destruct (_ =? 0); [done|]. f_equal.
  induction Hall as [|em rest [avg Hem] _ IH]; [done|].
  simpl. rewrite loop_condition, part001_loop_condition, IH.
  unfold below_target, measured_below. by rewrite Hem.
Qed.

Lemma evaluateMeasures_variants_agree_witness :
  Forall (fun em => is_Some (averages_of [MeasureAvg.mk 1 12%Q] !! ExpectedMetric.metricId em))
         [ExpectedMetric.mk 1 1 20%Q]
  /\ Part001.evaluateMeasures (MArray [MeasureAvg.mk 1 12%Q]) [ExpectedMetric.mk 1 1 20%Q]
       (SchoolsConnection.mk 0 0 0)
     = evaluateMeasures (MArray [MeasureAvg.mk 1 12%Q]) [ExpectedMetric.mk 1 1 20%Q]
         (SchoolsConnection.mk 0 0 0).
Proof.
  assert (Forall (fun em => is_Some (averages_of [MeasureAvg.mk 1 12%Q]
                                       !! ExpectedMetric.metricId em))
                 [ExpectedMetric.mk 1 1 20%Q]) as H.
  { constructor; [by eexists|constructor]. }
  split; [exact H|].
  apply (evaluateMeasures_variants_agree [MeasureAvg.mk 1 12%Q] [ExpectedMetric.mk 1 1 20%Q]
           (SchoolsConnection.mk 0 0 0) H).
Defined.

(** ** The loops over the schools with a map keyed by school name *)

Lemma for_each_total {A S} (f : A -> S -> Result S) (l : list A) (s : S) :
  (forall x a, x ∈ l -> exists a', f x a = Ok a') ->
  exists s', for_each f l s = Ok s'.
Proof.
  revert s. induction l as [|x l IH]; intros s Hf; simpl; [by eexists|].
  destruct (Hf x s) as [a Hx]; [by left|]. rewrite Hx.
  apply IH. intros y b Hy. apply Hf. by right.
Qed.

Lemma Part001_evaluateMeasures_array rows expected sc :
  exists sc', Part001.evaluateMeasures (MArray rows) expected sc = Ok sc'.
Proof. unfold Part001.evaluateMeasures. destruct (_ =? 0); by eexists. Qed.

Lemma evaluateMeasures_array rows expected sc :
  exists sc', evaluateMeasures (MArray rows) expected sc = Ok sc'.
Proof. unfold evaluateMeasures. destruct (_ =? 0); by eexists. Qed.

(** With the map [getContractList] builds, the loop of the part_001
    variant of [contractListDTO], which reads [schoolsMeasures[school.name]],
    raises nothing for any of the listed contracts, and counts every school
    of the contract once. *)
Theorem part001_connection_of_total (db : Db) (listed : list ContractModel.t)
    (contract : ContractModel.t) :
  contract ∈ listed ->
  exists sc,
    part001_connection_of (collect_schoolsMeasures db listed) contract = Ok sc
    /\ counts_up_to (Z.of_nat (length (ContractModel.schools contract))) sc.
Proof.
  intros Hc.
  assert (exists sc, part001_connection_of (collect_schoolsMeasures db listed) contract
                     = Ok sc) as [sc Hsc].
  { unfold part001_connection_of. destruct (negb _); [|by eexists].
    apply for_each_total. intros school a Hs.
    destruct (collect_schoolsMeasures_keyed_by_school db listed contract school Hc Hs)
      as [rows ->].
    apply Part001_evaluateMeasures_array. }
  exists sc. split; [done|].
  revert Hsc. unfold part001_connection_of. apply loop_counts_up.
  intros school a a'. apply Part001_evaluateMeasures_one_more.
Qed.

Lemma part001_connection_of_total_witness :
  exists sc,
    part001_connection_of
      (collect_schoolsMeasures Sample.db
         (scoped_contracts Sample.roleNames Sample.admin Sample.db))
      (preload_contract Sample.db Sample.contract1) = Ok sc
    /\ counts_up_to
         (Z.of_nat (length (ContractModel.schools (preload_contract Sample.db Sample.contract1))))
         sc.
Proof.
  apply (part001_connection_of_total Sample.db
           (scoped_contracts Sample.roleNames Sample.admin Sample.db)).
  by left.
Defined.

(** ** The detail views *)

Lemma details_connection_of_Err sm contract e :
  details_connection_of sm contract = Err e -> is_TypeError e.
Proof.
  unfold details_connection_of. destruct (negb _); [|done].
  intros H. apply for_each_Err in H as (school & sc & _ & H).
  by apply evaluateMeasures_Err in H.
Qed.

Lemma traverse_Err {A B} (f : A -> Result B) l e :
  traverse f l = Err e -> exists x, x ∈ l /\ f x = Err e.
Proof.
  induction l as [|x l IH]; simpl; [done|].
  destruct (f x) as [y|e1] eqn:Hx.
  - destruct (traverse f l) as [ys|e2]; [done|].
    intros [= <-]. destruct IH as (z & Hz & Hfz); [done|]. exists z. split; [by right|done].
  - intros [= <-]. exists x. split; [by left|done].
Qed.



(** Both detail views raise a [TypeError] for a contract that has no LTA:
    [contract?.lta.name] guards the contract, not its [lta]. *)
Theorem detail_views_need_lta (laterStatuses : list string)
    (getPercentage : Z -> option Z -> Z) (metrics : list Metric.t)
    (loaded : LoadedContract.t) (schoolsMeasures : gmap string (list MeasureAvg.t))
    (connectionsMedian : list ConnectionMedian.t) :
  ContractModel.lta (LoadedContract.contract loaded) = None ->
  (exists detail,
     contractDeatilsDTO getPercentage loaded schoolsMeasures connectionsMedian
     = Err (TypeError detail))
  /\ (exists detail, getContractDTO laterStatuses metrics loaded = Err (TypeError detail)).
Proof.
  intros Hlta. split.
  - unfold contractDeatilsDTO. rewrite Hlta.
    destruct (details_connection_of _ _) as [sc|e] eqn:Hconn.
    + destruct (ContractModel.isp _); by eexists.
    + apply details_connection_of_Err in Hconn as [detail ->]. by eexists.
  - unfold getContractDTO. rewrite Hlta.
    destruct (ContractModel.isp _); by eexists.
Qed.

Lemma detail_views_need_lta_witness :
  ContractModel.lta (LoadedContract.contract Fixtures.loadedLoose) = None
  /\ (exists detail,
        contractDeatilsDTO Sample.getPercentage Fixtures.loadedLoose
          Fixtures.measuresBySchool [] = Err (TypeError detail))
  /\ (exists detail,
        getContractDTO Sample.laterStatuses Fixtures.metricRows Fixtures.loadedLoose
        = Err (TypeError detail)).
Proof.
  split; [reflexivity|].
  apply (detail_views_need_lta Sample.laterStatuses Sample.getPercentage Fixtures.metricRows
           Fixtures.loadedLoose Fixtures.measuresBySchool []).
  reflexivity.
Defined.



(** For a contract with its ISP and its LTA loaded and a measures map that
    has an entry for each of its schools, [contractDeatilsDTO] returns the
    details: the names of the ISP and of the LTA, the number of schools,
    and the percentages of three counters that add up to the number of
    schools of the contract. *)
Theorem contractDeatilsDTO_returns (getPercentage : Z -> option Z -> Z)
    (loaded : LoadedContract.t) (schoolsMeasures : gmap string (list MeasureAvg.t))
    (connectionsMedian : list ConnectionMedian.t) (isp : Isp.t) (lta : Lta.t) :
  let contract := LoadedContract.contract loaded in
  ContractModel.isp contract = Some isp ->
  ContractModel.lta contract = Some lta ->
  (forall school, school ∈ ContractModel.schools contract ->
     is_Some (schoolsMeasures !! School.name school)) ->
  exists details sc,
    contractDeatilsDTO getPercentage loaded schoolsMeasures connectionsMedian = Ok details
    /\ counts_up_to (Z.of_nat (length (ContractModel.schools contract))) sc
    /\ ContractDetails.schoolsConnection details
       = Some (SchoolsConnection.mk
                 (getPercentage (ContractModel.schools_count contract)
                    (Some (SchoolsConnection.withoutConnection sc)))
                 (getPercentage (ContractModel.schools_count contract)
                    (Some (SchoolsConnection.atLeastOneBellowAvg sc)))
                 (getPercentage (ContractModel.schools_count contract)
                    (Some (SchoolsConnection.allEqualOrAboveAvg sc))))
    /\ ContractDetails.isp details = Isp.name isp
    /\ ContractDetails.lta details = Some (Lta.name lta)
    /\ ContractDetails.numberOfSchools details = Some (ContractModel.schools_count contract)
    /\ ContractDetails.attachments details = LoadedContract.attachments loaded
    /\ ContractDetails.connectionsMedian details = connectionsMedian.
Proof.
  intros contract Hisp Hlta Hkeys.
  assert (exists sc, details_connection_of schoolsMeasures contract = Ok sc) as [sc Hsc].
  { unfold details_connection_of. destruct (negb _); [|by eexists].
    apply for_each_total. intros school a Hs.
    destruct (Hkeys school Hs) as [rows Hrows].
    unfold measures_by_school. rewrite Hrows. apply evaluateMeasures_array. }
  unfold contractDeatilsDTO. fold contract. rewrite Hsc, Hisp, Hlta.
  eexists _, sc. split; [reflexivity|]. split; [|done].
  revert Hsc. unfold details_connection_of. apply loop_counts_up.
  intros school a a'. apply evaluateMeasures_one_more.
Qed.

Lemma contractDeatilsDTO_returns_witness :
  exists details sc,
    contractDeatilsDTO Sample.getPercentage Fixtures.loadedInLta Fixtures.measuresBySchool []
    = Ok details
    /\ counts_up_to 1 sc
    /\ ContractDetails.schoolsConnection details
       = Some (SchoolsConnection.mk
                 (Sample.getPercentage 1 (Some (SchoolsConnection.withoutConnection sc)))
                 (Sample.getPercentage 1 (Some (SchoolsConnection.atLeastOneBellowAvg sc)))
                 (Sample.getPercentage 1 (Some (SchoolsConnection.allEqualOrAboveAvg sc))))
    /\ ContractDetails.isp details = "Vivo"
    /\ ContractDetails.lta details = Some "LTA 1"
    /\ ContractDetails.numberOfSchools details = Some 1
    /\ ContractDetails.attachments details
       = Some [Attachment.mk 5 "https://files/lower_20.pdf"]
    /\ ContractDetails.connectionsMedian details = [].
Proof.
  apply (contractDeatilsDTO_returns Sample.getPercentage Fixtures.loadedInLta
           Fixtures.measuresBySchool [] Sample.vivo Sample.lta1).
  - reflexivity.
  - reflexivity.
  - intros school Hs. apply list_elem_of_singleton in Hs. subst. by eexists.
Defined.


(** The expected metric of contract 3 refers to metric 1, "Uptime". *)
Example getContractDTO_sample :
  exists dto,
    getContractDTO Sample.laterStatuses Fixtures.metricRows Fixtures.loadedInLta = Ok dto
    /\ ContractDTO.expectedMetrics dto = [ExpectedMetricDTO.mk 1 "Uptime" "%" 10%Q]
    /\ ContractDTO.status dto = Some "Sent"
    /\ ContractDTO.lta dto = "LTA 1".
Proof. eexists. split; [reflexivity|]. repeat split. Qed.

(** ** contractCountByStatusDTO *)

Lemma label_Draft_is_0 later n :
  NoDup (ContractStatus.labels later) ->
  ContractStatus.label later n = Some "Draft" -> n = 0.
Proof.
  intros Hnodup. unfold ContractStatus.label.
  destruct (n <? 0) eqn:Hn; [done|]. apply Z.ltb_ge in Hn.
  intros H.
  assert (ContractStatus.labels later !! 0%nat = Some "Draft") as H0 by done.
  pose proof (NoDup_lookup _ _ _ _ Hnodup H H0). lia.
Qed.

(** When the labels of the status enum are distinct and no group of the
    count query is in status [Draft], the result has exactly one entry
    labelled "Draft": the last one, which carries the count of the drafts;
    the entries before it are the groups, in order. *)
Theorem contractCountByStatusDTO_draft_bucket (laterStatuses : list string)
    (parseInt : string -> Z) (contracts : list StatusGroup.t)
    (totalCount draftsCount : string) :
  NoDup (ContractStatus.labels laterStatuses) ->
  Forall (fun g => StatusGroup.status g <> ContractStatus.Draft) contracts ->
  let counts :=
    ContractsStatusCount.counts
      (contractCountByStatusDTO laterStatuses parseInt contracts totalCount draftsCount) in
  filter (fun e => StatusCount.status e = Some "Draft") counts
  = [StatusCount.mk (Some "Draft") draftsCount]
  /\ last counts = Some (StatusCount.mk (Some "Draft") draftsCount)
  /\ length counts = S (length contracts)
  /\ StatusCount.count <$> counts = (StatusGroup.count <$> contracts) ++ [draftsCount].
Proof.
  intros Hnodup Hgroups. unfold contractCountByStatusDTO. simpl.
  split; [|split; [|split]].
  - rewrite filter_app, filter_none.
    + by rewrite filter_cons_True by done.
    + intros e (g & -> & Hg)%list_elem_of_fmap. simpl. intros Hlabel.
      apply (label_Draft_is_0 _ _ Hnodup) in Hlabel.
      by apply (proj1 (Forall_forall _ _) Hgroups) in Hg.
  - by rewrite last_snoc.
  - rewrite length_app, length_fmap. simpl. lia.
  - rewrite fmap_app, <- list_fmap_compose. done.
Qed.

Lemma contractCountByStatusDTO_draft_bucket_witness :
  let counts :=
    ContractsStatusCount.counts
      (contractCountByStatusDTO Sample.laterStatuses Sample.parseInt
         [StatusGroup.mk 1 "3"; StatusGroup.mk 2 "1"] "4" "2") in
  filter (fun e => StatusCount.status e = Some "Draft") counts
  = [StatusCount.mk (Some "Draft") "2"]
  /\ last counts = Some (StatusCount.mk (Some "Draft") "2")
  /\ length counts = 3%nat
  /\ StatusCount.count <$> counts = ["3"; "1"; "2"].
Proof.
  apply (contractCountByStatusDTO_draft_bucket Sample.laterStatuses Sample.parseInt
           [StatusGroup.mk 1 "3"; StatusGroup.mk 2 "1"] "4" "2").
  - apply (bool_decide_unpack _). vm_compute. exact I.
  - repeat constructor; discriminate.
Defined.

(** A group in status [Draft] makes two entries labelled "Draft". *)
Example contractCountByStatusDTO_two_draft_entries :
  StatusCount.status <$>
    ContractsStatusCount.counts
      (contractCountByStatusDTO Sample.laterStatuses Sample.parseInt
         [StatusGroup.mk 0 "1"] "1" "2")
  = [Some "Draft"; Some "Draft"].
Proof. reflexivity. Qed.

(** ** The attachment service *)

Lemma detached_all (id : Z) (pivot : list (Z * Z)) :
  existsb (fun p => p.2 =? id) (List.filter (fun p => negb (p.2 =? id)) pivot) = false.
Proof.
  induction pivot as [|p pivot IH]; [done|]. simpl.
  destruct (p.2 =? id) eqn:E; simpl; [done|]. by rewrite E.
Qed.

Lemma deleteAttachment_Ok {Blobs : Type} (storage : storage.t Blobs)
    (attachmentId : Z) (f f' : Files Blobs) :
  deleteAttachment storage attachmentId f = (Ok tt, f') ->
  refused f AttachmentFind = false
  /\ attachmentId ∈ attachments (tables f)
  /\ exists held,
       storage.deleteFile storage (attachment_url f attachmentId) (blobs f) = (Ok tt, held)
       /\ f' = mkFiles
                 (set_attachments
                    (List.filter (fun k => negb (k =? attachmentId)) (attachments (tables f)))
                    (set_contract_attachments
                       (List.filter (fun p => negb (p.2 =? attachmentId))
                                    (contract_attachments (tables f)))
                       (tables f)))
                 (attachment_url f) (attachments_id_seq f) held (refused f).
Proof.
  unfold_attachments. run_attachments; try done.
  intros [= <-]. split; [done|]. split; [by eapply bool_decide_eq_true_1|].
  by eexists.
Qed.

(** [deleteAttachment] of a key that no attachment has raises
    [NotFoundException] and touches neither the tables nor the file
    storage. *)
Theorem deleteAttachment_not_found {Blobs : Type} (storage : storage.t Blobs)
    (attachmentId : Z) (f : Files Blobs) :
  refused f AttachmentFind = false ->
  attachmentId ∉ attachments (tables f) ->
  deleteAttachment storage attachmentId f
  = (Err (NotFoundException "Attachment not found" 404 "NOT_FOUND"), f).
Proof.
  intros Hfind Hid. unfold_attachments. rewrite Hfind. simpl.
  by rewrite bool_decide_eq_false_2.
Qed.

Lemma deleteAttachment_not_found_witness :
  deleteAttachment Fixtures.blobStorage 77 Fixtures.files
  = (Err (NotFoundException "Attachment not found" 404 "NOT_FOUND"), Fixtures.files).
Proof.
  apply (deleteAttachment_not_found Fixtures.blobStorage 77 Fixtures.files).
  - reflexivity.
  - intros H%list_elem_of_singleton. discriminate.
Defined.



(** [deleteAttachment] is not all-or-nothing: when the storage has deleted
    the file and the store then refuses to detach the contracts, the call
    fails with the error of the store, the file stays deleted, and the
    attachment row and its links are still in the tables. *)
Theorem deleteAttachment_not_atomic {Blobs : Type} (storage : storage.t Blobs)
    (attachmentId : Z) (f : Files Blobs) (held : Blobs) :
  refused f AttachmentFind = false ->
  attachmentId ∈ attachments (tables f) ->
  storage.deleteFile storage (attachment_url f attachmentId) (blobs f) = (Ok tt, held) ->
  refused f AttachmentDetach = true ->
  deleteAttachment storage attachmentId f
  = (Err (DatabaseError "statement failed"),
     mkFiles (tables f) (attachment_url f) (attachments_id_seq f) held (refused f)).
Proof.
  intros Hfind Hid Hdelete Hdetach. unfold_attachments. rewrite Hfind. simpl.
  rewrite bool_decide_eq_true_2 by done. simpl. rewrite Hdelete. simpl.
  by rewrite Hdetach.
Qed.

Lemma deleteAttachment_not_atomic_witness :
  deleteAttachment Fixtures.blobStorage 5 Fixtures.files_refusing_detach
  = (Err (DatabaseError "statement failed"),
     mkFiles (tables Fixtures.files_refusing_detach)
             (attachment_url Fixtures.files_refusing_detach)
             (attachments_id_seq Fixtures.files_refusing_detach) []
             (refused Fixtures.files_refusing_detach)).
Proof.
  apply (deleteAttachment_not_atomic Fixtures.blobStorage 5 Fixtures.files_refusing_detach []).
  - reflexivity.
  - apply (bool_decide_unpack _). vm_compute. exact I.
  - reflexivity.
  - reflexivity.
Defined.

(** A contract cannot be created with an attachment that was deleted:
    after a successful [deleteAttachment], [createContract] with a payload
    that refers to the attachment fails with the dependency failure. *)
Theorem deleteAttachment_then_createContract {Blobs : Type} (storage : storage.t Blobs)
    (attachmentId : Z) (f f' : Files Blobs) (data : ContractCreation.t)
    (unreliable : StorageOp -> bool) :
  deleteAttachment storage attachmentId f = (Ok tt, f') ->
  attachmentId
  ∈ destructObjArrayWithId (default [] (ContractCreation.attachments data)) ->
  createContract data (mkStorage (tables f') None unreliable)
  = (Err (FailedDependencyException "Some dependency failed while creating contract"
            424 "FAILED_DEPENDENCY"),
     mkStorage (tables f') None unreliable).
Proof.
  intros Hdelete Hin.
  assert (attachmentId ∉ attachments (tables f')) as Hgone.
  { apply deleteAttachment_Ok in Hdelete as (_ & _ & held & _ & ->). simpl.
    intros Habs%list_elem_of_In.
    apply filter_In in Habs as [_ Habs]. by rewrite Z.eqb_refl in Habs. }
  apply (createContract_invalid_reference data (mkStorage (tables f') None unreliable)).
  unfold references_ok. simpl.
  destruct (forallb _ (destructObjArrayWithId _)) eqn:Hall; [|done].
  exfalso. rewrite forallb_forall in Hall.
  apply list_elem_of_In, Hall, bool_decide_eq_true in Hin. done.
Qed.

Lemma deleteAttachment_then_createContract_witness :
  createContract Sample.fromDraft
    (mkStorage (tables (deleteAttachment Fixtures.blobStorage 5 Fixtures.files).2) None
               (fun _ => false))
  = (Err (FailedDependencyException "Some dependency failed while creating contract"
            424 "FAILED_DEPENDENCY"),
     mkStorage (tables (deleteAttachment Fixtures.blobStorage 5 Fixtures.files).2) None
               (fun _ => false)).
Proof.
  apply (deleteAttachment_then_createContract Fixtures.blobStorage 5 Fixtures.files
           (deleteAttachment Fixtures.blobStorage 5 Fixtures.files).2 Sample.fromDraft
           (fun _ => false)).
  - reflexivity.
  - apply (bool_decide_unpack _). vm_compute. exact I.
Defined.

(** [uploadAttachment] inserts a row only after the storage has taken the
    file: when it fails, with the error that was raised and no other, the
    tables are as before; when it succeeds, the one new attachment has the
    next key and the URL the storage returned. *)
Theorem uploadAttachment_outcome {Blobs : Type} (storage : storage.t Blobs)
    (file : string) (f : Files Blobs) (r : Result Attachment.t) (f' : Files Blobs) :
  uploadAttachment storage file f = (r, f') ->
  match r with
  | Err e =>
      tables f' = tables f /\ attachments_id_seq f' = attachments_id_seq f
      /\ (storage.uploadFile storage file (blobs f) = (Err e, blobs f')
          \/ (e = DatabaseError "statement failed"
              /\ exists url, storage.uploadFile storage file (blobs f) = (Ok url, blobs f')))
  | Ok attachment =>
      storage.uploadFile storage file (blobs f) = (Ok (Attachment.url attachment), blobs f')
      /\ Attachment.id attachment = attachments_id_seq f
      /\ attachments_id_seq f' = attachments_id_seq f + 1
      /\ attachments (tables f') = attachments (tables f) ++ [Attachment.id attachment]
      /\ attachment_url f' (Attachment.id attachment) = Attachment.url attachment
      /\ contract_attachments (tables f') = contract_attachments (tables f)
      /\ contracts (tables f') = contracts (tables f)
  end.
Proof.
  unfold_attachments. run_attachments; intros [= <- <-]; simpl.
  - repeat split; try done. right. by eauto.
  - repeat split; try done. by rewrite Z.eqb_refl.
  - repeat split; try done. by left.
Qed.

Lemma uploadAttachment_Ok {Blobs : Type} (storage : storage.t Blobs)
    (file : string) (f : Files Blobs) (attachment : Attachment.t) (f' : Files Blobs) :
  uploadAttachment storage file f = (Ok attachment, f') ->
  storage.uploadFile storage file (blobs f) = (Ok (Attachment.url attachment), blobs f')
  /\ Attachment.id attachment = attachments_id_seq f
  /\ f' = mkFiles (set_attachments (attachments (tables f) ++ [attachments_id_seq f])
                                   (tables f))
                  (fun k => if k =? attachments_id_seq f
                            then Attachment.url attachment else attachment_url f k)
                  (attachments_id_seq f + 1) (blobs f') (refused f).
Proof.
  unfold_attachments. run_attachments; intros [= <- <-]; simpl. done.
Qed.

(** Round trip: an attachment that was uploaded can be read back, under its
    key, with the URL the storage returned, signed. *)
Theorem uploadAttachment_then_getAttachment {Blobs : Type} (storage : storage.t Blobs)
    (file : string) (f : Files Blobs) (attachment : Attachment.t) (f' : Files Blobs) :
  uploadAttachment storage file f = (Ok attachment, f') ->
  refused f AttachmentFind = false ->
  getAttachment storage (Attachment.id attachment) f'
  = (Ok (Attachment.mk (Attachment.id attachment)
           (storage.generateSasToken storage (Attachment.url attachment))), f').
Proof.
  intros Hup Hfind. apply uploadAttachment_Ok in Hup as (_ & -> & ->).
  unfold_attachments. simpl. rewrite Hfind. simpl. rewrite Z.eqb_refl.
  rewrite bool_decide_eq_true_2; [done|].
  apply elem_of_app. right. by left.
Qed.

Lemma uploadAttachment_then_getAttachment_witness :
  uploadAttachment Fixtures.blobStorage "report.pdf" Fixtures.files
  = (Ok (Attachment.mk 6 "https://files/report.pdf"),
     (uploadAttachment Fixtures.blobStorage "report.pdf" Fixtures.files).2)
  /\ getAttachment Fixtures.blobStorage 6
       (uploadAttachment Fixtures.blobStorage "report.pdf" Fixtures.files).2
     = (Ok (Attachment.mk 6 "https://files/report.pdf?sig=1"),
        (uploadAttachment Fixtures.blobStorage "report.pdf" Fixtures.files).2).
Proof.
  split; [reflexivity|].
  apply (uploadAttachment_then_getAttachment Fixtures.blobStorage "report.pdf" Fixtures.files
           (Attachment.mk 6 "https://files/report.pdf")).
  - reflexivity.
  - reflexivity.
Defined.

(** After a successful [deleteAttachment], [getAttachment] of the same key
    raises [NotFoundException]. *)
Theorem deleteAttachment_then_getAttachment {Blobs : Type} (storage : storage.t Blobs)
    (attachmentId : Z) (f f' : Files Blobs) :
  deleteAttachment storage attachmentId f = (Ok tt, f') ->
  getAttachment storage attachmentId f'
  = (Err (NotFoundException "Attachment not found" 404 "NOT_FOUND"), f').
Proof.
  intros H. apply deleteAttachment_Ok in H as (Hfind & _ & held & _ & ->).
  unfold_attachments. simpl. rewrite Hfind. simpl.
  rewrite bool_decide_eq_false_2; [done|].
  intros Habs%list_elem_of_In. apply filter_In in Habs as [_ Habs].
  by rewrite Z.eqb_refl in Habs.
Qed.

Lemma deleteAttachment_then_getAttachment_witness :
  getAttachment Fixtures.blobStorage 5 (deleteAttachment Fixtures.blobStorage 5 Fixtures.files).2
  = (Err (NotFoundException "Attachment not found" 404 "NOT_FOUND"),
     (deleteAttachment Fixtures.blobStorage 5 Fixtures.files).2).
Proof.
  apply (deleteAttachment_then_getAttachment Fixtures.blobStorage 5 Fixtures.files).
  reflexivity.
Defined.

Lemma uploadAttachment_outcome_witness :
  let f' := (uploadAttachment Fixtures.blobStorage "report.pdf" Fixtures.files).2 in
  uploadAttachment Fixtures.blobStorage "report.pdf" Fixtures.files
  = (Ok (Attachment.mk 6 "https://files/report.pdf"), f')
  /\ attachments (tables f') = [5; 6]
  /\ attachments_id_seq f' = 7.
Proof.
  split; [reflexivity|].
  destruct (uploadAttachment_outcome Fixtures.blobStorage "report.pdf" Fixtures.files
              (Ok (Attachment.mk 6 "https://files/report.pdf"))
              (uploadAttachment Fixtures.blobStorage "report.pdf" Fixtures.files).2 eq_refl)
    as (_ & _ & Hseq & Hkeys & _).
  split; [by rewrite Hkeys|by rewrite Hseq].
Defined.

(** ** getContractList when no listed contract has a school *)






(** ** The two workflows together *)

(** What a run of [createContract] that returned tells about the store it
    ran on. *)
Lemma createContract_Ok data s contract s' :
  createContract data s = (Ok contract, s') ->
  available s [ContractCreate; AttachmentsAttach; SchoolsAttach; ExpectedMetricsCreate]
  /\ references_ok data (committed s) = true
  /\ outage s' = outage s
  /\ pending s' = None
  /\ attachments (committed s') = attachments (committed s)
  /\ schools (committed s') = schools (committed s)
  /\ metrics (committed s') = metrics (committed s)
  /\ contracts (committed s') = contracts (committed s) ++ [contract]
  /\ Contract.id contract = contracts_id_seq (committed s)
  /\ Contract.status contract = ContractStatus.Sent
  /\ (truthy (ContractCreation.draftId data) = true ->
      outage s DraftFindBy = false
      /\ exists draft,
           List.find (fun d => Draft.id d =? default 0 (ContractCreation.draftId data))
                     (drafts (committed s)) = Some draft
           /\ drafts (committed s')
              = List.filter (fun d => negb (Draft.id d =? Draft.id draft))
                            (drafts (committed s))).
Proof.
  unfold references_ok.
  run_workflow; intros H; outcome H.
  all: repeat split; try done; try (by repeat constructor).
  by eexists.
Qed.

Lemma find_filter_out (d : Z) (ds : list Draft.t) :
  List.find (fun x => Draft.id x =? d)
            (List.filter (fun x => negb (Draft.id x =? d)) ds) = None.
Proof.
  induction ds as [|x ds IH]; [done|]. simpl.
  destruct (Draft.id x =? d) eqn:E; simpl; [done|]. by rewrite E.
Qed.

(** A draft is promoted once: after [createContract] has succeeded with a
    [draftId], the same payload sent again fails with the
    [NotFoundException] "Draft not found", and nothing is written. *)
Theorem createContract_draft_once (data : ContractCreation.t) (s : Storage)
    (contract : Contract.t) (s' : Storage) :
  createContract data s = (Ok contract, s') ->
  truthy (ContractCreation.draftId data) = true ->
  createContract data s'
  = (Err (NotFoundException "Draft not found" 404 "NOT_FOUND"), rolled_back s').
Proof.
  intros H Htruthy.
  apply createContract_Ok in H
    as (Hav & Href & Hout & _ & Ha & Hs & Hm & _ & _ & _ & Hdraft).
  destruct (Hdraft Htruthy) as (Hfindby & draft & Hfind & Hdrafts).
  apply createContract_draft_not_found.
  - unfold available in *. rewrite Hout.
    repeat (apply Forall_cons in Hav as [? Hav]). by repeat constructor.
  - unfold references_ok in *. by rewrite Ha, Hs, Hm.
  - split; [done|]. rewrite Hdrafts.
    apply find_some_elem in Hfind as [_ Hid]. apply Z.eqb_eq in Hid.
    rewrite Hid. apply find_filter_out.
Qed.

Lemma createContract_draft_once_witness :
  createContract Sample.fromDraft (createContract Sample.fromDraft Sample.storage).2
  = (Err (NotFoundException "Draft not found" 404 "NOT_FOUND"),
     rolled_back (createContract Sample.fromDraft Sample.storage).2).
Proof.
  apply (createContract_draft_once Sample.fromDraft Sample.storage Sample.contract2).
  - reflexivity.
  - reflexivity.
Defined.

Lemma find_fresh (cs : list Contract.t) (contract : Contract.t) :
  (forall c, c ∈ cs -> Contract.id c < Contract.id contract) ->
  List.find (fun c => Contract.id c =? Contract.id contract) (cs ++ [contract])
  = Some contract.
Proof.
  intros Hlt. induction cs as [|c cs IH]; simpl.
  - by rewrite Z.eqb_refl.
  - assert (Contract.id c < Contract.id contract) as Hc by (apply Hlt; by left).
    rewrite (proj2 (Z.eqb_neq _ _)) by lia.
    apply IH. intros x Hx. apply Hlt. by right.
Qed.

(** A contract that was just created is at [Sent]: on a store with
    well-formed keys, a transition of the new contract to [Sent] or back to
    [Draft] fails with [InvalidStatusException], and the transition to the
    status after [Sent] succeeds when the enum has one and the store
    accepts the statements. *)
Theorem created_contract_moves_on (laterStatuses : list string)
    (data : ContractCreation.t) (s : Storage) (contract : Contract.t) (s' : Storage)
    (u : Z) :
  Db_keys_ok (committed s) ->
  createContract data s = (Ok contract, s') ->
  outage s ContractFind = false ->
  u <> 0 ->
  let invalid := Err (InvalidStatusException "Invalid status" 400 "INVALID_STATUS") in
  changeStatus laterStatuses (Contract.id contract) ContractStatus.Sent (Some u) s'
  = (invalid, rolled_back s')
  /\ changeStatus laterStatuses (Contract.id contract) ContractStatus.Draft (Some u) s'
     = (invalid, rolled_back s')
  /\ (laterStatuses <> [] ->
      available s [StatusTransitionCreate; ContractSave; TrxCommit] ->
      exists s'',
        changeStatus laterStatuses (Contract.id contract) (ContractStatus.Sent + 1) (Some u) s'
        = (Ok (Some (Contract.set_status contract (ContractStatus.Sent + 1))), s'')).
Proof.
  intros (Hseq & _ & _) H Hfindop Hu.
  apply createContract_Ok in H
    as (_ & _ & Hout & Hpending & _ & _ & _ & Hcontracts & Hid & Hstatus & _).
  assert (List.find (fun c => Contract.id c =? Contract.id contract) (contracts (committed s'))
          = Some contract) as Hfind.
  { rewrite Hcontracts. apply find_fresh. intros c Hc. rewrite Hid. by apply Hseq. }
  assert (truthy (Some u) = true) as Ht by (by apply negb_true_iff, Z.eqb_neq).
  unfold_workflow. rewrite Ht. simpl. rewrite Hout, Hfindop, Hfind. simpl.
  rewrite Hstatus. simpl. repeat split.
  intros Hlater Hav. repeat (apply available_cons in Hav as [? Hav]).
  destruct laterStatuses as [|next later]; [done|]. simpl.
  repeat match goal with H : outage s _ = false |- _ => rewrite H; clear H; simpl end.
  by eexists.
Qed.

Lemma created_contract_moves_on_witness :
  let s' := (createContract Sample.fromDraft Sample.storage).2 in
  let invalid := Err (InvalidStatusException "Invalid status" 400 "INVALID_STATUS") in
  changeStatus Sample.laterStatuses 2 ContractStatus.Sent (Some 9) s'
  = (invalid, rolled_back s')
  /\ changeStatus Sample.laterStatuses 2 ContractStatus.Draft (Some 9) s'
     = (invalid, rolled_back s')
  /\ (Sample.laterStatuses <> [] ->
      available Sample.storage [StatusTransitionCreate; ContractSave; TrxCommit] ->
      exists s'',
        changeStatus Sample.laterStatuses 2 (ContractStatus.Sent + 1) (Some 9) s'
        = (Ok (Some (Contract.set_status Sample.contract2 (ContractStatus.Sent + 1))), s'')).
Proof.
  apply (created_contract_moves_on Sample.laterStatuses Sample.fromDraft Sample.storage
           Sample.contract2 (createContract Sample.fromDraft Sample.storage).2 9).
  - apply Sample_db_keys_ok.
  - reflexivity.
  - reflexivity.
  - lia.
Defined.
